(** * go-chroma-client: the request dispatcher and resource-path resolution

    A shallow embedding of [client.go] and of the error model of the
    [chromaclient] package.

    Go data is represented as follows.
    - [string] is a sequence of bytes: [String.string].
    - [[]byte] is [list byte]; the conversion [string(b)] is
      [string_of_list_byte], which keeps every byte.
    - [int] and [time.Duration] are [Z]; a [time.Time] is an instant in
      nanoseconds, also [Z].
    - [error] is [option error] where [None] is Go's [nil].
    - a possibly-nil [interface{}] argument is an [option]; a pointer handed
      over as result target is the content of the slot it points to, and the
      content after the call is returned next to the error.
    - the functions of the Go standard library that the client calls and
      that depend on the run-time type of a value ([json.Marshal],
      [json.Unmarshal]) are type classes; [http.NewRequestWithContext] and
      the default transport are section variables.  The pure string
      functions ([strings.TrimSuffix], [url.QueryEscape], and of
      [url.Parse] and [URL.RequestURI] what deals with the path) are
      written out. *)

From Stdlib Require Import List ZArith Bool Lia PeanoNat.
From Stdlib Require Import Strings.String Strings.Ascii Strings.Byte.
Import ListNotations.

Local Open Scope string_scope.
Local Open Scope Z_scope.

Set Implicit Arguments.

(** ** Package [strings] *)

Module strings.

(** [strings.HasSuffix]: [len(s) >= len(suffix) && s[len(s)-len(suffix):] == suffix]. *)
Definition HasSuffix (s suffix : string) : bool :=
  (String.length suffix <=? String.length s)%nat
  && (substring (String.length s - String.length suffix)
                (String.length suffix) s =? suffix)%string.

(** [strings.TrimSuffix]: [s] without the trailing [suffix], once, when
    [s] ends with it; [s] itself otherwise. *)
Definition TrimSuffix (s suffix : string) : string :=
  if HasSuffix s suffix
  then substring 0 (String.length s - String.length suffix) s
  else s.

End strings.

(** ** Package [time] *)

Module time.

Definition Duration := Z.
Definition Time := Z.

Definition Nanosecond : Duration := 1.
Definition Microsecond : Duration := 1000 * Nanosecond.
Definition Millisecond : Duration := 1000 * Microsecond.
Definition Second : Duration := 1000 * Millisecond.

End time.

(** ** Package [net/url]: escaping *)

Module url.

(** The two escaping modes that matter here: [encodeQueryComponent] is the
    mode of [QueryEscape] and [QueryUnescape], [encodePathSegment] the mode
    of [PathUnescape], in which a URL parser decodes a segment of a path. *)
Inductive encoding : Type := encodePathSegment | encodeQueryComponent.

Definition between (lo hi c : ascii) : bool :=
  (N_of_ascii lo <=? N_of_ascii c)%N && (N_of_ascii c <=? N_of_ascii hi)%N.

(** The letters, digits and marks [-_.~] that no mode escapes. *)
Definition unreserved (c : ascii) : bool :=
  between "a" "z" c || between "A" "Z" c || between "0" "9" c
  || Ascii.eqb c "-" || Ascii.eqb c "_" || Ascii.eqb c "." || Ascii.eqb c "~".

(** [shouldEscape(c, mode)] for the two modes. *)
Definition shouldEscape (c : ascii) (mode : encoding) : bool :=
  if unreserved c then false
  else match mode with
       | encodeQueryComponent => true
       | encodePathSegment =>
           negb (Ascii.eqb c "$" || Ascii.eqb c "&" || Ascii.eqb c "+"
                 || Ascii.eqb c ":" || Ascii.eqb c "=" || Ascii.eqb c "@")
       end.

(** [upperhex[n]] with [upperhex = "0123456789ABCDEF"]. *)
Definition upperhex (n : N) : ascii :=
  match String.get (N.to_nat n) "0123456789ABCDEF" with
  | Some c => c
  | None => "0"%char
  end.

Definition ishex (c : ascii) : bool :=
  between "0" "9" c || between "a" "f" c || between "A" "F" c.

Definition unhex (c : ascii) : N :=
  if between "0" "9" c then N_of_ascii c - N_of_ascii "0"
  else if between "a" "f" c then N_of_ascii c - N_of_ascii "a" + 10
  else if between "A" "F" c then N_of_ascii c - N_of_ascii "A" + 10
  else 0.

(** [escape(s, mode)]: a space becomes [+] in a query component, a byte
    that must be escaped becomes [%XX], any other byte is kept. *)
Fixpoint escape (s : string) (mode : encoding) : string :=
  match s with
  | EmptyString => EmptyString
  | String c rest =>
      if Ascii.eqb c " " && match mode with encodeQueryComponent => true | _ => false end
      then String "+" (escape rest mode)
      else if shouldEscape c mode
      then String "%" (String (upperhex (N.shiftr (N_of_ascii c) 4))
                      (String (upperhex (N.land (N_of_ascii c) 15))
                              (escape rest mode)))
      else String c (escape rest mode)
  end.

(** [unescape(s, mode)]: [None] is the [EscapeError] for a [%] that is not
    followed by two hexadecimal digits. *)
Fixpoint unescape (s : string) (mode : encoding) : option string :=
  match s with
  | EmptyString => Some EmptyString
  | String c rest =>
      if Ascii.eqb c "%" then
        match rest with
        | String h (String l rest') =>
            if ishex h && ishex l
            then option_map (String (ascii_of_N (N.lor (N.shiftl (unhex h) 4) (unhex l))))
                            (unescape rest' mode)
            else None
        | _ => None
        end
      else if Ascii.eqb c "+" then
        option_map (String match mode with
                           | encodeQueryComponent => " "%char
                           | encodePathSegment => "+"%char
                           end)
                   (unescape rest mode)
      else option_map (String c) (unescape rest mode)
  end.

(** Does the byte [c] occur in [s]? *)
Fixpoint contains (c : ascii) (s : string) : bool :=
  match s with
  | EmptyString => false
  | String c' rest => Ascii.eqb c' c || contains c rest
  end.

Definition QueryEscape (s : string) : string := escape s encodeQueryComponent.
Definition QueryUnescape (s : string) : option string := unescape s encodeQueryComponent.
Definition PathUnescape (s : string) : option string := unescape s encodePathSegment.

(** [url.PathEscape], which the client does not call: the function of the
    package for a segment of a path. *)
Definition PathEscape (s : string) : string := escape s encodePathSegment.

(** The raw segments of a path: the pieces between the [/]. *)
Fixpoint split_slash (s : string) : list string :=
  match s with
  | EmptyString => [EmptyString]
  | String c rest =>
      if Ascii.eqb c "/" then EmptyString :: split_slash rest
      else match split_slash rest with
           | seg :: segs => String c seg :: segs
           | [] => [String c EmptyString]
           end
  end.

Fixpoint sequence {A : Type} (l : list (option A)) : option (list A) :=
  match l with
  | [] => Some []
  | Some a :: l' => option_map (cons a) (sequence l')
  | None :: _ => None
  end.

(** The segments of an escaped path as a URL parser gives them to a
    server: the path is cut at its [/] and every piece is unescaped. *)
Definition segments (path : string) : option (list string) :=
  sequence (map PathUnescape (split_slash path)).

End url.

(** ** Errors *)

(** [HTTPError] of [types.go]. *)
Record HTTPError : Type := mkHTTPError {
  StatusCode : Z;
  Message : string;
  Timestamp : time.Time
}.

(** [func (e *HTTPError) Error() string { return e.Message }] *)
Definition HTTPError_Error (e : HTTPError) : string := Message e.

(** The values of Go's [error] interface that reach a caller of the client:
    an error made by the standard library, an error made by
    [fmt.Errorf("...: %w", err)], and a [*HTTPError]. *)
Inductive error : Type :=
| errorString (text : string)
| wrapError (msg : string) (err : error)
| httpError (e : HTTPError).

(** The method [Error()] of the interface. *)
Definition Error (e : error) : string :=
  match e with
  | errorString text => text
  | wrapError msg _ => msg
  | httpError e => HTTPError_Error e
  end.

Module fmt.

(** [fmt.Errorf(prefix + "%w", err)]: the message is the prefix followed
    by [err.Error()], and [err] is kept for [errors.Unwrap]. *)
Definition Errorf_w (prefix : string) (err : error) : error :=
  wrapError (prefix ++ Error err) err.

End fmt.

(** ** Package [io] *)

Module io.

(** A response body as the reader sees it: the bytes it delivers and how
    the stream ends, with [io.EOF] ([None]) or with a read error. *)
Record ReadCloser : Type := mkReadCloser {
  delivered : list byte;
  failure : option error
}.

(** [io.ReadAll]: all the bytes when the stream ends with [io.EOF]; the
    caller in [doRequest] drops the bytes read before an error. *)
Definition ReadAll (r : ReadCloser) : error + list byte :=
  match failure r with
  | Some err => inl err
  | None => inr (delivered r)
  end.

End io.

(** ** Package [net/http] *)

Module http.

Definition MethodGet : string := "GET".
Definition MethodPost : string := "POST".
Definition MethodPut : string := "PUT".
Definition MethodDelete : string := "DELETE".

Definition Header := list (string * string).

(** [Header.Set] for a key in canonical form: the entry for [key] is
    replaced. *)
Definition Header_Set (key value : string) (h : Header) : Header :=
  (key, value) :: filter (fun kv => negb (fst kv =? key)%string) h.

Record Request (GoContext : Type) : Type := mkRequest {
  Ctx : GoContext;
  Method : string;
  URL : string;
  ReqHeader : Header;
  ReqBody : option (list byte)
}.

Record Response : Type := mkResponse {
  RespStatusCode : Z;
  Body : io.ReadCloser
}.

End http.

(** ** The world outside the client

    The requests handed to [c.httpClient.Do] so far, one for each call of
    [Do], most recent first, and the wall clock.  The log counts the calls
    of [Do], not the exchanges on the network: to answer one call the HTTP
    client may make several of them, as when it follows redirects. *)
Record World (GoContext : Type) : Type := mkWorld {
  calls : list (http.Request GoContext);
  clock : time.Time
}.

(** [*http.Client] as far as the client uses it: the [Timeout] field and
    what one call of [Do] answers to a request in a given world, after all
    the exchanges on the network that the call takes, together with the
    instant at which the call is over. *)
Record http_Client (GoContext : Type) : Type := mk_http_Client {
  Timeout : time.Duration;
  exchange : World GoContext -> http.Request GoContext ->
             (error + http.Response) * time.Time
}.

(** ** The state monad of the calls *)

Section Monad.

Variable GoContext : Type.

Definition M (A : Type) : Type := World GoContext -> A * World GoContext.

Definition ret {A : Type} (a : A) : M A := fun w => (a, w).

Definition bind {A B : Type} (m : M A) (k : A -> M B) : M B :=
  fun w => let (a, w') := m w in k a w'.

(** [c.httpClient.Do(req)]: one call of [Do]; the request is logged and
    the clock moves to the end of the call. *)
Definition Do (h : http_Client GoContext) (req : http.Request GoContext)
  : M (error + http.Response) :=
  fun w =>
    let (r, t) := exchange h w req in
    (r, {| calls := req :: calls w; clock := t |}).

(** [time.Now()] *)
Definition Now : M time.Time := fun w => (clock w, w).

End Monad.

Arguments ret {GoContext A} a.
Arguments bind {GoContext A B} m k.
Arguments Now {GoContext}.

Notation "x <- m ;; k" := (bind m (fun x => k))
  (at level 61, m at next level, right associativity).

(** ** [encoding/json] as seen from the client *)

Module json.

(** [json.Marshal(v)] for the values of a Go type. *)
Class Marshaler (B : Type) : Type :=
  Marshal : B -> error + list byte.

(** [json.Unmarshal(data, &v)] for a target of a Go type: the content of
    the target afterwards, and the error.  The target may have been
    written even when an error is returned. *)
Class Unmarshaler (T : Type) : Type :=
  Unmarshal : list byte -> T -> T * option error.

End json.

(** *** [encoding/json] on the Go types of the examples

    [json.Unmarshal] into a [*string], [json.Marshal] of a [bool] and of a
    channel, after the documentation of the package.  The text of a
    decoding error depends on the whole input and is not modelled: every
    rejected input gives [rejected]. *)

Module json_string.

Local Open Scope list_scope.

Definition code (b : byte) : N := Byte.to_N b.

Definition byte_of (n : N) : byte :=
  match Byte.of_N n with
  | Some b => b
  | None => x00
  end.

(** The white space of JSON: space, tab, carriage return, line feed. *)
Definition isSpace (b : byte) : bool :=
  (code b =? 32)%N || (code b =? 9)%N || (code b =? 13)%N || (code b =? 10)%N.

Fixpoint skipSpace (data : list byte) : list byte :=
  match data with
  | b :: rest => if isSpace b then skipSpace rest else data
  | [] => []
  end.

Definition hexval (b : byte) : option N :=
  let n := code b in
  if ((48 <=? n) && (n <=? 57))%N then Some (n - 48)%N
  else if ((97 <=? n) && (n <=? 102))%N then Some (n - 87)%N
  else if ((65 <=? n) && (n <=? 70))%N then Some (n - 55)%N
  else None.

(** [getu4]: the code unit of a backslash, [u], four hexadecimal digits. *)
Definition getu4 (s : list byte) : option N :=
  match s with
  | b :: u :: h1 :: h2 :: h3 :: h4 :: _ =>
      if ((code b =? 92) && (code u =? 117))%N then
        match hexval h1, hexval h2, hexval h3, hexval h4 with
        | Some a, Some b, Some c, Some d =>
            Some (4096 * a + 256 * b + 16 * c + d)%N
        | _, _, _, _ => None
        end
      else None
  | _ => None
  end.

(** [unicode.ReplacementChar], U+FFFD. *)
Definition ReplacementChar : N := 65533.

(** [utf8.EncodeRune] *)
Definition EncodeRune (r : N) : list byte :=
  if (r <? 128)%N then [byte_of r]
  else if (r <? 2048)%N then
    [byte_of (192 + N.shiftr r 6); byte_of (128 + N.land r 63)]
  else if ((55296 <=? r) && (r <? 57344))%N || (1114111 <? r)%N then
    [xef; xbf; xbd]
  else if (r <? 65536)%N then
    [byte_of (224 + N.shiftr r 12);
     byte_of (128 + N.land (N.shiftr r 6) 63);
     byte_of (128 + N.land r 63)]
  else
    [byte_of (240 + N.shiftr r 18);
     byte_of (128 + N.land (N.shiftr r 12) 63);
     byte_of (128 + N.land (N.shiftr r 6) 63);
     byte_of (128 + N.land r 63)].

(** [utf16.IsSurrogate] and [utf16.DecodeRune] *)
Definition IsSurrogate (r : N) : bool := ((55296 <=? r) && (r <? 57344))%N.

Definition DecodeRune16 (r1 r2 : N) : N :=
  if ((55296 <=? r1) && (r1 <? 56320) && (56320 <=? r2) && (r2 <? 57344))%N
  then (N.lor (N.shiftl (r1 - 55296) 10) (r2 - 56320) + 65536)%N
  else ReplacementChar.

Definition inRange (lo hi : N) (b : byte) : bool :=
  ((lo <=? code b) && (code b <=? hi))%N.

(** The width of the UTF-8 sequence at the head of [s] as
    [utf8.DecodeRune] accepts it, and 0 when there is none. *)
Definition runeWidth (s : list byte) : nat :=
  match s with
  | [] => 0%nat
  | b0 :: s1 =>
      let n := code b0 in
      if (n <? 128)%N then 1%nat
      else if inRange 194 223 b0 then
        match s1 with
        | b1 :: _ => if inRange 128 191 b1 then 2%nat else 0%nat
        | _ => 0%nat
        end
      else if inRange 224 239 b0 then
        match s1 with
        | b1 :: b2 :: _ =>
            let lo := if (n =? 224)%N then 160%N else 128%N in
            let hi := if (n =? 237)%N then 159%N else 191%N in
            if inRange lo hi b1 && inRange 128 191 b2 then 3%nat else 0%nat
        | _ => 0%nat
        end
      else if inRange 240 244 b0 then
        match s1 with
        | b1 :: b2 :: b3 :: _ =>
            let lo := if (n =? 240)%N then 144%N else 128%N in
            let hi := if (n =? 244)%N then 143%N else 191%N in
            if inRange lo hi b1 && inRange 128 191 b2 && inRange 128 191 b3
            then 4%nat else 0%nat
        | _ => 0%nat
        end
      else 0%nat
  end.

(** The byte that a one-letter escape stands for. *)
Definition simpleEscape (b : byte) : option byte :=
  let n := code b in
  if ((n =? 34) || (n =? 92) || (n =? 47))%N then Some b
  else if (n =? 98)%N then Some x08
  else if (n =? 102)%N then Some x0c
  else if (n =? 110)%N then Some x0a
  else if (n =? 114)%N then Some x0d
  else if (n =? 116)%N then Some x09
  else None.

Definition emit (out : list byte) (r : option (list byte * list byte))
  : option (list byte * list byte) :=
  match r with
  | Some (s, tail) => Some (out ++ s, tail)
  | None => None
  end.

(** The content of a string literal, read from behind its opening quote
    up to its closing quote, and what follows the literal; [None] when the
    literal is not well formed.  [fuel] bounds the number of steps; the
    length of the input is enough. *)
Fixpoint unquote (fuel : nat) (s : list byte) : option (list byte * list byte) :=
  match fuel with
  | O => None
  | S fuel =>
      match s with
      | [] => None
      | c :: rest =>
          if (code c =? 34)%N then Some ([], rest)
          else if (code c =? 92)%N then
            match rest with
            | [] => None
            | e :: rest' =>
                if (code e =? 117)%N then
                  match getu4 s with
                  | None => None
                  | Some rr =>
                      let after := skipn 6 s in
                      if IsSurrogate rr then
                        match getu4 after with
                        | Some rr1 =>
                            if (DecodeRune16 rr rr1 =? ReplacementChar)%N
                            then emit (EncodeRune ReplacementChar) (unquote fuel after)
                            else emit (EncodeRune (DecodeRune16 rr rr1))
                                      (unquote fuel (skipn 6 after))
                        | None => emit (EncodeRune ReplacementChar) (unquote fuel after)
                        end
                      else emit (EncodeRune rr) (unquote fuel after)
                  end
                else
                  match simpleEscape e with
                  | Some b => emit [b] (unquote fuel rest')
                  | None => None
                  end
            end
          else if (code c <? 32)%N then None
          else if (code c <? 128)%N then emit [c] (unquote fuel rest)
          else
            match runeWidth s with
            | O => emit (EncodeRune ReplacementChar) (unquote fuel rest)
            | w => emit (firstn w s) (unquote fuel (skipn w s))
            end
      end
  end.

(** A byte that stands for itself in a string literal: printable ASCII
    other than the quote and the backslash. *)
Definition plain (b : byte) : bool :=
  (32 <=? code b)%N && (code b <? 128)%N
  && negb (code b =? 34)%N && negb (code b =? 92)%N.

(** A JSON text for a string of plain bytes: the bytes between quotes,
    and the line feed that [json.Encoder] writes behind a value. *)
Definition literal (s : list byte) : list byte :=
  x22 :: s ++ [x22; x0a].

Definition rejected : error :=
  errorString "json: cannot unmarshal into Go value of type string".

(** Is the text, white space apart, the literal [null]? *)
Definition isNull (data : list byte) : bool :=
  match skipSpace data with
  | n :: u :: l1 :: l2 :: tail =>
      ((code n =? 110) && (code u =? 117) && (code l1 =? 108) && (code l2 =? 108))%N
      && match skipSpace tail with [] => true | _ => false end
  | _ => false
  end.

(** [json.Unmarshal(data, &v)] with [v] a [string]: a string literal is
    stored, [null] leaves the target as it is, anything else is an error
    and the target is not written. *)
Definition Unmarshal_string (data : list byte) (v : string)
  : string * option error :=
  match skipSpace data with
  | q :: rest =>
      if (code q =? 34)%N then
        match unquote (S (List.length rest)) rest with
        | Some (s, tail) =>
            match skipSpace tail with
            | [] => (string_of_list_byte s, None)
            | _ => (v, Some rejected)
            end
        | None => (v, Some rejected)
        end
      else if isNull data then (v, None)
      else (v, Some rejected)
  | [] => (v, Some rejected)
  end.

(** A Go channel, a value that [json.Marshal] refuses. *)
Inductive chan : Type := make_chan.

Definition Marshal_chan (v : chan) : error + list byte :=
  inl (errorString "json: unsupported type: chan int").

Definition Marshal_bool (v : bool) : error + list byte :=
  inr (list_byte_of_string (if v then "true" else "false")).

End json_string.

(** The untyped [nil] that the calls without payload hand over as [body]:
    a type without values, so the body is always [None]. *)
Inductive nilBody : Type := .

#[global] Instance nilBody_Marshaler : json.Marshaler nilBody :=
  fun b => match b with end.

(** The zero value of a Go type: what [var result T] holds. *)
Class Zero (T : Type) : Type := zero : T.

#[global] Instance string_Zero : Zero string := EmptyString.
#[global] Instance slice_Zero (A : Type) : Zero (list A) := [].
#[global] Instance int_Zero : Zero Z := 0.

(** The content of a result slot after a call. *)
Definition deref {T : Type} (before : T) (after : option T) : T :=
  match after with
  | Some v => v
  | None => before
  end.

(** ** The client *)

(** [DefaultTenant] and [DefaultDatabase] of [types.go]. *)
Definition DefaultTenant : string := "default_tenant".
Definition DefaultDatabase : string := "default_database".

Section Client.

Variable GoContext : Type.

Record Client : Type := mkClient {
  baseURL : string;
  httpClient : http_Client GoContext;
  tenant : string;
  database : string
}.

(** [ClientOption], a function on a pointer to [Client]: the effect of the
    function on the client it is given. *)
Definition ClientOption : Type := Client -> Client.

Definition WithBaseURL (baseURL' : string) : ClientOption :=
  fun c => {| baseURL := strings.TrimSuffix baseURL' "/";
              httpClient := httpClient c;
              tenant := tenant c;
              database := database c |}.

Definition WithHTTPClient (httpClient' : http_Client GoContext) : ClientOption :=
  fun c => {| baseURL := baseURL c;
              httpClient := httpClient';
              tenant := tenant c;
              database := database c |}.

Definition WithTenant (tenant' : string) : ClientOption :=
  fun c => {| baseURL := baseURL c;
              httpClient := httpClient c;
              tenant := tenant';
              database := database c |}.

Definition WithDatabase (database' : string) : ClientOption :=
  fun c => {| baseURL := baseURL c;
              httpClient := httpClient c;
              tenant := tenant c;
              database := database' |}.

(** What [(&http.Client{Timeout: ...}).Do] answers: the behaviour of
    [http.DefaultTransport] on the network. *)
Variable DefaultTransport :
  World GoContext -> http.Request GoContext -> (error + http.Response) * time.Time.

(** [NewClient]: the literal of lines 56-63, then
    [for _, opt := range opts { opt(c) }]. *)
Definition NewClient (opts : list ClientOption) : Client :=
  fold_left (fun c opt => opt c) opts
    {| baseURL := "http://localhost:8000";
       httpClient := {| Timeout := 30 * time.Second;
                        exchange := DefaultTransport |};
       tenant := DefaultTenant;
       database := DefaultDatabase |}.

(** The four options that the package provides, as data: which field an
    option sets, and to what. *)
Inductive Setting : Type :=
| SetBaseURL (baseURL' : string)
| SetHTTPClient (httpClient' : http_Client GoContext)
| SetTenant (tenant' : string)
| SetDatabase (database' : string).

Definition option_of (s : Setting) : ClientOption :=
  match s with
  | SetBaseURL baseURL' => WithBaseURL baseURL'
  | SetHTTPClient httpClient' => WithHTTPClient httpClient'
  | SetTenant tenant' => WithTenant tenant'
  | SetDatabase database' => WithDatabase database'
  end.

(** Do two options write the same field of the client? *)
Definition sameField (a b : Setting) : bool :=
  match a, b with
  | SetBaseURL _, SetBaseURL _ => true
  | SetHTTPClient _, SetHTTPClient _ => true
  | SetTenant _, SetTenant _ => true
  | SetDatabase _, SetDatabase _ => true
  | _, _ => false
  end.

(** *** The dispatcher *)

(** [http.NewRequestWithContext(ctx, method, url, body)] of the standard
    library: it checks the method, the context and the URL. *)
Variable http_NewRequestWithContext :
  GoContext -> string -> string -> option (list byte) ->
  error + http.Request GoContext.

(** Line 83: [c.baseURL+path], the URL of the request. *)
Definition requestURL (c : Client) (path : string) : string :=
  baseURL c ++ path.

(** [req.Header.Set(key, value)] *)
Definition setHeader (key value : string) (req : http.Request GoContext)
  : http.Request GoContext :=
  {| http.Ctx := http.Ctx req;
     http.Method := http.Method req;
     http.URL := http.URL req;
     http.ReqHeader := http.Header_Set key value (http.ReqHeader req);
     http.ReqBody := http.ReqBody req |}.

(** Lines 74-81: [bodyReader] stays [nil] for a [nil] body; otherwise the
    body is marshalled, and a failure ends the call. *)
Definition marshalBody {B : Type} {B_Marshaler : json.Marshaler B} (body : option B)
  : error + option (list byte) :=
  match body with
  | None => inr None
  | Some b =>
      match json.Marshal b with
      | inl err => inl (fmt.Errorf_w "failed to marshal request body: " err)
      | inr jsonData => inr (Some jsonData)
      end
  end.

(** Line 103: [resp.StatusCode < 200 || resp.StatusCode >= 300]. *)
Definition isFailure (status : Z) : bool :=
  (status <? 200) || (status >=? 300).

(** [doRequest], lines 73-118.  [result] is [None] for a [nil] result and
    [Some v] for a pointer to a slot that holds [v]; the second component
    of the answer is the slot after the call.  The deferred
    [resp.Body.Close()] has no part in what the call returns. *)
Definition doRequest {B T : Type} {B_Marshaler : json.Marshaler B}
    {T_Unmarshaler : json.Unmarshaler T}
    (c : Client) (ctx : GoContext) (method path : string)
    (body : option B) (result : option T)
  : M GoContext (option error * option T) :=
  match marshalBody body with
  | inl err => ret (Some err, result)
  | inr bodyReader =>
      match http_NewRequestWithContext ctx method (requestURL c path) bodyReader with
      | inl err =>
          ret (Some (fmt.Errorf_w "failed to create request: " err), result)
      | inr req =>
          let req := match body with
                     | Some _ => setHeader "Content-Type" "application/json" req
                     | None => req
                     end in
          resp <- Do (httpClient c) req ;;
          match resp with
          | inl err =>
              ret (Some (fmt.Errorf_w "failed to perform request: " err), result)
          | inr resp =>
              match io.ReadAll (http.Body resp) with
              | inl err =>
                  ret (Some (fmt.Errorf_w "failed to read response body: " err), result)
              | inr respBody =>
                  if isFailure (http.RespStatusCode resp) then
                    now <- Now ;;
                    ret (Some (httpError
                                 {| StatusCode := http.RespStatusCode resp;
                                    Message := string_of_list_byte respBody;
                                    Timestamp := now |}),
                         result)
                  else
                    match result with
                    | Some v =>
                        if (0 <? List.length respBody)%nat then
                          match json.Unmarshal respBody v with
                          | (v', Some err) =>
                              ret (Some (fmt.Errorf_w "failed to unmarshal response: " err),
                                   Some v')
                          | (v', None) => ret (None, Some v')
                          end
                        else ret (None, result)
                    | None => ret (None, result)
                    end
              end
          end
      end
  end.

(** The request that [doRequest] hands to the transport: lines 74-90,
    up to the call of [Do]. *)
Definition buildRequest {B : Type} {B_Marshaler : json.Marshaler B}
    (c : Client) (ctx : GoContext) (method path : string) (body : option B)
  : error + http.Request GoContext :=
  match marshalBody body with
  | inl err => inl err
  | inr bodyReader =>
      match http_NewRequestWithContext ctx method (requestURL c path) bodyReader with
      | inl err => inl (fmt.Errorf_w "failed to create request: " err)
      | inr req =>
          inr match body with
              | Some _ => setHeader "Content-Type" "application/json" req
              | None => req
              end
      end
  end.

(** In world [w] the transport of [c] answers [req] with a response of
    status [status] whose body is read to its end as [respBody]. *)
Definition answered (c : Client) (w : World GoContext)
    (req : http.Request GoContext) (status : Z) (respBody : list byte) : Prop :=
  exists resp : http.Response,
    fst (exchange (httpClient c) w req) = inr resp
    /\ http.RespStatusCode resp = status
    /\ io.ReadAll (http.Body resp) = inr respBody.

(** The world after the call of [Do] with [req] that starts in [w]. *)
Definition afterDo (c : Client) (w : World GoContext)
    (req : http.Request GoContext) : World GoContext :=
  {| calls := req :: calls w;
     clock := snd (exchange (httpClient c) w req) |}.

(** *** Resource paths

    The argument of [doRequest] that each operation builds with
    [fmt.Sprintf]; [%s] inserts its argument as it is. *)

Definition GetTenant_path (name : string) : string :=
  "/api/v2/tenants/" ++ name.

(** [tenant ...string]: the variadic argument is a list. *)
Definition tenantName (c : Client) (tenant' : list string) : string :=
  match tenant' with
  | t :: _ => t
  | [] => tenant c
  end.

Definition CreateDatabase_path (c : Client) (tenant' : list string) : string :=
  "/api/v2/tenants/" ++ url.QueryEscape (tenantName c tenant') ++ "/databases".

Definition GetDatabase_path (c : Client) (name : string) (tenant' : list string)
  : string :=
  "/api/v2/tenants/" ++ url.QueryEscape (tenantName c tenant')
    ++ "/databases/" ++ name.

Definition ListCollections_path (c : Client) (tenant' database' : string) : string :=
  let tenant' := if (tenant' =? "")%string then tenant c else tenant' in
  let database' := if (database' =? "")%string then database c else database' in
  "/api/v2/tenants/" ++ url.QueryEscape tenant'
    ++ "/databases/" ++ url.QueryEscape database' ++ "/collections".

Definition CountCollections_path (c : Client) (tenant' database' : string) : string :=
  let tenant' := if (tenant' =? "")%string then tenant c else tenant' in
  let database' := if (database' =? "")%string then database c else database' in
  "/api/v2/tenants/" ++ url.QueryEscape tenant'
    ++ "/databases/" ++ url.QueryEscape database' ++ "/collections_count".

Definition CreateCollection_path (c : Client) (tenant' database' : string) : string :=
  let tenant' := if (tenant' =? "")%string then tenant c else tenant' in
  let database' := if (database' =? "")%string then database c else database' in
  "/api/v2/tenants/" ++ url.QueryEscape tenant'
    ++ "/databases/" ++ url.QueryEscape database' ++ "/collections".

Definition GetCollection_path (c : Client) (name tenant' database' : string)
  : string :=
  let tenant' := if (tenant' =? "")%string then tenant c else tenant' in
  let database' := if (database' =? "")%string then database c else database' in
  "/api/v2/tenants/" ++ url.QueryEscape tenant'
    ++ "/databases/" ++ url.QueryEscape database' ++ "/collections/" ++ name.

Definition DeleteCollection_path (c : Client) (name tenant' database' : string)
  : string :=
  let tenant' := if (tenant' =? "")%string then tenant c else tenant' in
  let database' := if (database' =? "")%string then database c else database' in
  "/api/v2/tenants/" ++ url.QueryEscape tenant'
    ++ "/databases/" ++ url.QueryEscape database' ++ "/collections/" ++ name.

Definition UpdateCollection_path (collectionID : string) : string :=
  "/api/v2/collections/" ++ collectionID.

Definition Add_path (collectionID : string) : string :=
  "/api/v2/collections/" ++ collectionID ++ "/add".

Definition Update_path (collectionID : string) : string :=
  "/api/v2/collections/" ++ collectionID ++ "/update".

Definition Upsert_path (collectionID : string) : string :=
  "/api/v2/collections/" ++ collectionID ++ "/upsert".

Definition Get_path (collectionID : string) : string :=
  "/api/v2/collections/" ++ collectionID ++ "/get".

Definition Delete_path (collectionID : string) : string :=
  "/api/v2/collections/" ++ collectionID ++ "/delete".

Definition Count_path (collectionID : string) : string :=
  "/api/v2/collections/" ++ collectionID ++ "/count".

Definition Query_path (collectionID : string) : string :=
  "/api/v2/collections/" ++ collectionID ++ "/query".

(** *** The operations *)

Section Operations.

Context {Database Collection CreateDatabaseReq CreateCollectionReq : Type}.
Context {string_Unmarshaler : json.Unmarshaler string}.
Context {int_Unmarshaler : json.Unmarshaler Z}.
Context {Database_Zero : Zero Database}.
Context {Database_Unmarshaler : json.Unmarshaler Database}.
Context {Collection_Zero : Zero Collection}.
Context {Collection_Unmarshaler : json.Unmarshaler Collection}.
Context {Collections_Unmarshaler : json.Unmarshaler (list Collection)}.
Context {CreateDatabase_Marshaler : json.Marshaler CreateDatabaseReq}.
Context {CreateCollection_Marshaler : json.Marshaler CreateCollectionReq}.

(** [var result T; err := c.doRequest(..., &result); return result, err] *)
Definition call {B T : Type} {B_Marshaler : json.Marshaler B}
      {T_Unmarshaler : json.Unmarshaler T} {T_Zero : Zero T}
    (c : Client) (ctx : GoContext) (method path : string) (body : option B)
  : M GoContext (T * option error) :=
  r <- doRequest c ctx method path body (Some (zero : T)) ;;
  ret (deref zero (snd r), fst r).

Definition Version (c : Client) (ctx : GoContext)
  : M GoContext (string * option error) :=
  call c ctx http.MethodGet "/api/v2/version" (@None nilBody).

Definition CreateDatabase (c : Client) (ctx : GoContext)
    (req : CreateDatabaseReq) (tenant' : list string)
  : M GoContext (Database * option error) :=
  call c ctx http.MethodPost (CreateDatabase_path c tenant') (Some req).

Definition GetDatabase (c : Client) (ctx : GoContext)
    (name : string) (tenant' : list string)
  : M GoContext (Database * option error) :=
  call c ctx http.MethodGet (GetDatabase_path c name tenant') (@None nilBody).

Definition ListCollections (c : Client) (ctx : GoContext)
    (tenant' database' : string)
  : M GoContext (list Collection * option error) :=
  call c ctx http.MethodGet (ListCollections_path c tenant' database')
       (@None nilBody).

Definition CountCollections (c : Client) (ctx : GoContext)
    (tenant' database' : string)
  : M GoContext (Z * option error) :=
  call c ctx http.MethodGet (CountCollections_path c tenant' database')
       (@None nilBody).

Definition CreateCollection (c : Client) (ctx : GoContext)
    (req : CreateCollectionReq) (tenant' database' : string)
  : M GoContext (Collection * option error) :=
  call c ctx http.MethodPost (CreateCollection_path c tenant' database')
       (Some req).

Definition GetCollection (c : Client) (ctx : GoContext)
    (name tenant' database' : string)
  : M GoContext (Collection * option error) :=
  call c ctx http.MethodGet (GetCollection_path c name tenant' database')
       (@None nilBody).

(** [return c.doRequest(ctx, http.MethodDelete, path, nil, nil)]: no
    result target; the target type is immaterial. *)
Definition DeleteCollection (c : Client) (ctx : GoContext)
    (name tenant' database' : string)
  : M GoContext (option error) :=
  r <- doRequest c ctx http.MethodDelete
         (DeleteCollection_path c name tenant' database')
         (@None nilBody) (@None string) ;;
  ret (fst r).

End Operations.

End Client.

Arguments SetBaseURL {GoContext} baseURL'.
Arguments SetHTTPClient {GoContext} httpClient'.
Arguments SetTenant {GoContext} tenant'.
Arguments SetDatabase {GoContext} database'.
Arguments option_of {GoContext} s.

(** ** Stand-ins for the network, as in the tests of the package

    The tests run the client against an [httptest.Server] whose handler
    writes a fixed answer.  The context is [context.Background()], the
    one value [tt] of [unit]. *)

Module httptest.

(** [http.NewRequestWithContext] on a valid method and a well-formed URL,
    as in every example below: the request is built, with no header. *)
Definition NewRequestWithContext (ctx : unit) (method url : string)
    (body : option (list byte)) : error + http.Request unit :=
  inr {| http.Ctx := ctx;
         http.Method := if (method =? "")%string then http.MethodGet else method;
         http.URL := url;
         http.ReqHeader := [];
         http.ReqBody := body |}.

(** A client whose server answers every request with [status] and
    [body]; the exchange takes one unit of time. *)
Definition Server (status : Z) (body : list byte) : http_Client unit :=
  {| Timeout := 30 * time.Second;
     exchange := fun w _ =>
       (inr {| http.RespStatusCode := status;
               http.Body := {| io.delivered := body; io.failure := None |} |},
        clock w + 1) |}.

(** The network of the examples, on which nothing listens. *)
Definition Offline (w : World unit) (req : http.Request unit)
  : (error + http.Response) * time.Time :=
  (inl (errorString "dial tcp: connect: connection refused"), clock w + 1).

(** [NewClient(WithBaseURL(server.URL))] *)
Definition client (status : Z) (body : list byte) : Client unit :=
  NewClient Offline [WithBaseURL "http://127.0.0.1:8000";
                     WithHTTPClient (Server status body)].

(** Before the first request. *)
Definition start : World unit := {| calls := []; clock := 0 |}.

#[global] Instance string_Unmarshaler : json.Unmarshaler string :=
  json_string.Unmarshal_string.
#[global] Instance chan_Marshaler : json.Marshaler json_string.chan :=
  json_string.Marshal_chan.
#[global] Instance bool_Marshaler : json.Marshaler bool :=
  json_string.Marshal_bool.

(** The body that [json.NewEncoder(w).Encode("0.4.24")] writes: the
    string literal and a line feed. *)
Definition version_body : list byte :=
  [x22; x30; x2e; x34; x2e; x32; x34; x22; x0a].

(** The body [Collection not found] of the test [TestHTTPError]. *)
Definition not_found_body : list byte :=
  list_byte_of_string "Collection not found".

(** The call [c.doRequest(ctx, http.MethodGet, path, nil, &target)] on the
    client of a test server, before the first request, with a string
    target that holds [before]. *)
Definition get (status : Z) (body : list byte) (path before : string)
  : (option error * option string) * World unit :=
  doRequest NewRequestWithContext (client status body) tt
    http.MethodGet path (@None nilBody) (Some before) start.

(** The request of that call as the transport receives it. *)
Definition get_request (path : string) : http.Request unit :=
  {| http.Ctx := tt;
     http.Method := "GET";
     http.URL := "http://127.0.0.1:8000" ++ path;
     http.ReqHeader := [];
     http.ReqBody := None |}.

(** The call [c.doRequest(ctx, http.MethodPost, path, body, nil)] with a
    channel as body. *)
Definition post_chan (status : Z) (body : list byte) (path : string)
  : (option error * option string) * World unit :=
  doRequest NewRequestWithContext (client status body) tt
    http.MethodPost path (Some json_string.make_chan) (@None string) start.

End httptest.

(** ** The other operations of [client.go] *)

(** The [nil] that [Add], [Update] and [Upsert] hand over as [result]: a
    type without values, so there is nothing to decode into. *)
Inductive nilResult : Type := .

#[global] Instance nilResult_Unmarshaler : json.Unmarshaler nilResult :=
  fun _ v => match v with end.

#[global] Instance bool_Zero : Zero bool := false.

Section MoreOperations.

Variable GoContext : Type.
Variable http_NewRequestWithContext :
  GoContext -> string -> string -> option (list byte) ->
  error + http.Request GoContext.

(** [map[string]float64], [PreflightChecks], the structs of [types.go]. *)
Context {Float64Map PreflightChecks Tenant Collection GetResult QueryResult : Type}.
Context {CreateTenantReq UpdateCollectionReq : Type}.
Context {AddEmbedding UpdateEmbedding GetEmbedding DeleteEmbedding QueryEmbedding : Type}.
Context {Float64Map_Zero : Zero Float64Map}
        {Float64Map_Unmarshaler : json.Unmarshaler Float64Map}.
Context {PreflightChecks_Zero : Zero PreflightChecks}
        {PreflightChecks_Unmarshaler : json.Unmarshaler PreflightChecks}.
Context {Tenant_Zero : Zero Tenant} {Tenant_Unmarshaler : json.Unmarshaler Tenant}.
Context {Collection_Zero : Zero Collection}
        {Collection_Unmarshaler : json.Unmarshaler Collection}.
Context {GetResult_Zero : Zero GetResult}
        {GetResult_Unmarshaler : json.Unmarshaler GetResult}.
Context {QueryResult_Zero : Zero QueryResult}
        {QueryResult_Unmarshaler : json.Unmarshaler QueryResult}.
Context {bool_Unmarshaler : json.Unmarshaler bool}.
Context {int_Unmarshaler : json.Unmarshaler Z}.
Context {strings_Unmarshaler : json.Unmarshaler (list string)}.
Context {CreateTenant_Marshaler : json.Marshaler CreateTenantReq}.
Context {UpdateCollection_Marshaler : json.Marshaler UpdateCollectionReq}.
Context {AddEmbedding_Marshaler : json.Marshaler AddEmbedding}.
Context {UpdateEmbedding_Marshaler : json.Marshaler UpdateEmbedding}.
Context {GetEmbedding_Marshaler : json.Marshaler GetEmbedding}.
Context {DeleteEmbedding_Marshaler : json.Marshaler DeleteEmbedding}.
Context {QueryEmbedding_Marshaler : json.Marshaler QueryEmbedding}.

Definition Heartbeat (c : Client GoContext) (ctx : GoContext)
  : M GoContext (Float64Map * option error) :=
  call http_NewRequestWithContext c ctx http.MethodGet "/api/v2/heartbeat"
       (@None nilBody).

Definition Reset (c : Client GoContext) (ctx : GoContext)
  : M GoContext (bool * option error) :=
  call http_NewRequestWithContext c ctx http.MethodPost "/api/v2/reset"
       (@None nilBody).

Definition PreFlightChecks (c : Client GoContext) (ctx : GoContext)
  : M GoContext (PreflightChecks * option error) :=
  call http_NewRequestWithContext c ctx http.MethodGet "/api/v2/pre-flight-checks"
       (@None nilBody).

Definition Root (c : Client GoContext) (ctx : GoContext)
  : M GoContext (Float64Map * option error) :=
  call http_NewRequestWithContext c ctx http.MethodGet "/api/v2" (@None nilBody).

Definition CreateTenant (c : Client GoContext) (ctx : GoContext)
    (req : CreateTenantReq)
  : M GoContext (Tenant * option error) :=
  call http_NewRequestWithContext c ctx http.MethodPost "/api/v2/tenants" (Some req).

Definition GetTenant (c : Client GoContext) (ctx : GoContext) (name : string)
  : M GoContext (Tenant * option error) :=
  call http_NewRequestWithContext c ctx http.MethodGet (GetTenant_path name)
       (@None nilBody).

Definition UpdateCollection (c : Client GoContext) (ctx : GoContext)
    (collectionID : string) (req : UpdateCollectionReq)
  : M GoContext (Collection * option error) :=
  call http_NewRequestWithContext c ctx http.MethodPut
       (UpdateCollection_path collectionID) (Some req).

(** [return c.doRequest(ctx, http.MethodPost, path, req, nil)] *)
Definition Add (c : Client GoContext) (ctx : GoContext)
    (collectionID : string) (req : AddEmbedding)
  : M GoContext (option error) :=
  r <- doRequest http_NewRequestWithContext c ctx http.MethodPost
         (Add_path collectionID) (Some req) (@None nilResult) ;;
  ret (fst r).

Definition Update (c : Client GoContext) (ctx : GoContext)
    (collectionID : string) (req : UpdateEmbedding)
  : M GoContext (option error) :=
  r <- doRequest http_NewRequestWithContext c ctx http.MethodPost
         (Update_path collectionID) (Some req) (@None nilResult) ;;
  ret (fst r).

Definition Upsert (c : Client GoContext) (ctx : GoContext)
    (collectionID : string) (req : AddEmbedding)
  : M GoContext (option error) :=
  r <- doRequest http_NewRequestWithContext c ctx http.MethodPost
         (Upsert_path collectionID) (Some req) (@None nilResult) ;;
  ret (fst r).

Definition Get (c : Client GoContext) (ctx : GoContext)
    (collectionID : string) (req : GetEmbedding)
  : M GoContext (GetResult * option error) :=
  call http_NewRequestWithContext c ctx http.MethodPost
       (Get_path collectionID) (Some req).

Definition Delete (c : Client GoContext) (ctx : GoContext)
    (collectionID : string) (req : DeleteEmbedding)
  : M GoContext (list string * option error) :=
  call http_NewRequestWithContext c ctx http.MethodPost
       (Delete_path collectionID) (Some req).

Definition Count (c : Client GoContext) (ctx : GoContext) (collectionID : string)
  : M GoContext (Z * option error) :=
  call http_NewRequestWithContext c ctx http.MethodGet
       (Count_path collectionID) (@None nilBody).

Definition Query (c : Client GoContext) (ctx : GoContext)
    (collectionID : string) (req : QueryEmbedding)
  : M GoContext (QueryResult * option error) :=
  call http_NewRequestWithContext c ctx http.MethodPost
       (Query_path collectionID) (Some req).

End MoreOperations.

(** ** What callers do with the answers *)

Module errors.

(** [errors.Unwrap]: the error that [fmt.Errorf] with [%w] has wrapped. *)
Definition Unwrap (err : error) : option error :=
  match err with
  | wrapError _ inner => Some inner
  | _ => None
  end.

End errors.

(** [Header.Get] for a key in canonical form: the first value of the key. *)
Definition Header_Get (key : string) (h : http.Header) : option string :=
  option_map snd (find (fun kv => (fst kv =? key)%string) h).

(** The five stages at which [doRequest] wraps an error of the library. *)
Definition stages : list string :=
  ["failed to marshal request body: ";
   "failed to create request: ";
   "failed to perform request: ";
   "failed to read response body: ";
   "failed to unmarshal response: "].

Section Settings.

Variable GoContext : Type.

(** The value that the last of the [settings] gives to a field, with
    [pick] telling what a setting gives to the field. *)
Fixpoint lastOf {A : Type} (pick : Setting GoContext -> option A)
    (settings : list (Setting GoContext)) : option A :=
  match settings with
  | [] => None
  | s :: rest =>
      match lastOf pick rest with
      | Some a => Some a
      | None => pick s
      end
  end.

Definition givenBaseURL (s : Setting GoContext) : option string :=
  match s with SetBaseURL u => Some u | _ => None end.

Definition givenHTTPClient (s : Setting GoContext) : option (http_Client GoContext) :=
  match s with SetHTTPClient h => Some h | _ => None end.

Definition givenTenant (s : Setting GoContext) : option string :=
  match s with SetTenant t => Some t | _ => None end.

Definition givenDatabase (s : Setting GoContext) : option string :=
  match s with SetDatabase d => Some d | _ => None end.

End Settings.

Arguments givenBaseURL {GoContext} s.
Arguments givenHTTPClient {GoContext} s.
Arguments givenTenant {GoContext} s.
Arguments givenDatabase {GoContext} s.

(** The tenant or database that a call uses: the default for the empty
    string ([if tenant == "" { tenant = c.tenant }]). *)
Definition orDefault (given default : string) : string :=
  if (given =? "")%string then default else given.

(** [strings.Cut(s, sep)] for a separator of one byte, first result: [s]
    up to the first [sep], and all of [s] when [sep] does not occur. *)
Fixpoint cutAt (sep : ascii) (s : string) : string :=
  match s with
  | EmptyString => EmptyString
  | String x rest => if Ascii.eqb x sep then EmptyString else String x (cutAt sep rest)
  end.

(** [strings.Cut(s, sep)], second result: what follows the first [sep],
    and the empty string when [sep] does not occur. *)
Fixpoint cutAfter (sep : ascii) (s : string) : string :=
  match s with
  | EmptyString => EmptyString
  | String x rest => if Ascii.eqb x sep then rest else cutAfter sep rest
  end.

(** ** Package [net/url]: parsing

    [http.NewRequestWithContext] parses the address with [url.Parse] and
    makes no request when that fails; the request line of a request that
    is made carries [URL.RequestURI()].  The package is here under the name
    that [net/http] imports it by.  The address is that of the client: a
    base address of the form [scheme://host], without path, [?] and [#],
    followed by a resource path that begins with a slash; of [url.Parse]
    the part is modelled that deals with the text behind the host. *)

Module urlpkg.

(** [stringContainsCTLByte]: is there a byte below the space, or [0x7f]? *)
Fixpoint stringContainsCTLByte (s : string) : bool :=
  match s with
  | EmptyString => false
  | String b rest =>
      (N_of_ascii b <? 32)%N || (N_of_ascii b =? 127)%N
      || stringContainsCTLByte rest
  end.

(** [shouldEscape(c, encodePath)]: of the reserved bytes [$&+,/:;=?@] only
    the [?] is escaped in a path; the letters, digits and [-_.~] are not
    escaped, all other bytes are. *)
Definition shouldEscapePath (c : ascii) : bool :=
  if url.unreserved c then false
  else negb (url.contains c "$&+,/:;=@").

(** [escape(s, encodePath)]. *)
Fixpoint escapePath (s : string) : string :=
  match s with
  | EmptyString => EmptyString
  | String c rest =>
      if shouldEscapePath c
      then String "%" (String (url.upperhex (N.shiftr (N_of_ascii c) 4))
                      (String (url.upperhex (N.land (N_of_ascii c) 15))
                              (escapePath rest)))
      else String c (escapePath rest)
  end.

(** [unescape(s, encodePath)] and [unescape(s, encodeFragment)]: in these
    modes, as in that of a path segment, a [+] stays a [+] and no byte is
    refused; the error is that of a [%] without two hexadecimal digits. *)
Definition unescapePath (s : string) : option string :=
  url.unescape s url.encodePathSegment.

(** [validEncoded(s, encodePath)]: the sub-delimiters, [:], [@], the
    brackets and [%] are accepted, and of the other bytes those that
    [shouldEscape] leaves alone. *)
Fixpoint validEncoded (s : string) : bool :=
  match s with
  | EmptyString => true
  | String c rest =>
      if url.contains c "!$&'()*+,;=:@[]%" then validEncoded rest
      else if shouldEscapePath c then false
      else validEncoded rest
  end.

(** The fields of [url.URL] that the path of the request line is made
    of. *)
Record URL : Type := { Path : string; RawPath : string }.

(** [setPath]: [Path] is the path unescaped; [RawPath] is left empty when
    the path is the default escaping of [Path], and is the path
    otherwise. *)
Definition setPath (p : string) : option URL :=
  match unescapePath p with
  | None => None
  | Some path =>
      Some {| Path := path;
              RawPath := if (escapePath path =? p)%string then "" else p |}
  end.

(** [url.Parse] on the text behind the host.  The fragment is cut off at
    the first [#]; the text before it is refused when it holds a control
    byte; the path is that text up to the first [?] (with or without
    [ForceQuery]) and is set by [setPath]; a fragment that is not empty is
    unescaped by [setFragment].  [None] is the error of [url.Parse]. *)
Definition Parse (rest : string) : option URL :=
  let u := cutAt "#" rest in
  let frag := cutAfter "#" rest in
  if stringContainsCTLByte u then None
  else match setPath (cutAt "?" u) with
       | None => None
       | Some parsed =>
           if (frag =? "")%string then Some parsed
           else match unescapePath frag with
                | None => None
                | Some _ => Some parsed
                end
       end.

(** [EscapedPath]: [RawPath] when it is a valid encoding of [Path], and
    the default escaping of [Path] otherwise. *)
Definition EscapedPath (u : URL) : string :=
  if negb (RawPath u =? "")%string && validEncoded (RawPath u)
     && match unescapePath (RawPath u) with
        | Some p => (p =? Path u)%string
        | None => false
        end
  then RawPath u
  else if (Path u =? "*")%string then "*"
  else escapePath (Path u).

(** The path in [RequestURI], which the request line carries: the escaped
    path, and [/] when that is empty. *)
Definition RequestURI_path (u : URL) : string :=
  if (EscapedPath u =? "")%string then "/" else EscapedPath u.

End urlpkg.

(** The segments that a server reads from the request line of the request
    for the resource path [path], which begins with a slash: the path
    that is sent, cut at its slashes, every piece unescaped.  [None] when
    [url.Parse] refuses the address, so that no request is made, and for
    a text that does not begin with a slash and so is no path behind a
    host. *)
Definition readSegments (path : string) : option (list string) :=
  match path with
  | EmptyString => None
  | String first _ =>
      if Ascii.eqb first "/" then
        match urlpkg.Parse path with
        | None => None
        | Some u => url.segments (urlpkg.RequestURI_path u)
        end
      else None
  end.

(** A client without server: every call of [Do] is refused. *)
Definition offline_client : Client unit := NewClient httptest.Offline [].

(** ** The string that a JSON text denotes

    The strings of JSON after RFC 8259, section 7, written without
    reference to the decoder: the bytes between the quotes of a string
    literal, and the Go string (a sequence of bytes, UTF-8) that they stand
    for.  A [\u] escape of half a surrogate pair that has no other half
    stands for no character and is left out. *)

Module json_text.

Local Open Scope list_scope.

(** The high and the low half of a surrogate pair. *)
Definition isHigh (r : N) : bool := ((55296 <=? r) && (r <? 56320))%N.
Definition isLow (r : N) : bool := ((56320 <=? r) && (r <? 57344))%N.

(** The code point of a surrogate pair. *)
Definition pair (high low : N) : N :=
  (65536 + 1024 * (high - 55296) + (low - 56320))%N.

Inductive denotes : list byte -> list byte -> Prop :=
| denotes_end :
    denotes [] []
| denotes_plain (b : byte) (text s : list byte) :
    (* a printable ASCII byte other than the quote and the backslash *)
    json_string.plain b = true ->
    denotes text s ->
    denotes (b :: text) (b :: s)
| denotes_utf8 (sequence text s : list byte) :
    (* one character outside ASCII, in UTF-8 *)
    (2 <= List.length sequence)%nat ->
    json_string.runeWidth sequence = List.length sequence ->
    denotes text s ->
    denotes (sequence ++ text) (sequence ++ s)
| denotes_escape (letter b : byte) (text s : list byte) :
    (* a backslash and one of the letters of the two-byte escapes *)
    json_string.simpleEscape letter = Some b ->
    denotes text s ->
    denotes (x5c :: letter :: text) (b :: s)
| denotes_unicode (h1 h2 h3 h4 : byte) (r : N) (text s : list byte) :
    (* a backslash, [u] and four hexadecimal digits: a code point of the
       basic plane *)
    json_string.getu4 [x5c; x75; h1; h2; h3; h4] = Some r ->
    isHigh r = false -> isLow r = false ->
    denotes text s ->
    denotes (x5c :: x75 :: h1 :: h2 :: h3 :: h4 :: text)
            (json_string.EncodeRune r ++ s)
| denotes_pair (h1 h2 h3 h4 l1 l2 l3 l4 : byte) (high low : N)
      (text s : list byte) :
    (* two such escapes, the halves of a surrogate pair *)
    json_string.getu4 [x5c; x75; h1; h2; h3; h4] = Some high ->
    json_string.getu4 [x5c; x75; l1; l2; l3; l4] = Some low ->
    isHigh high = true -> isLow low = true ->
    denotes text s ->
    denotes (x5c :: x75 :: h1 :: h2 :: h3 :: h4
               :: x5c :: x75 :: l1 :: l2 :: l3 :: l4 :: text)
            (json_string.EncodeRune (pair high low) ++ s).

(** A JSON text that is a string literal: the literal between white
    space. *)
Definition stringText (before text after : list byte) : list byte :=
  before ++ x22 :: text ++ x22 :: after.

End json_text.

(** * Properties *)

Section Dispatcher.

Variable GoContext : Type.
Variable http_NewRequestWithContext :
  GoContext -> string -> string -> option (list byte) ->
  error + http.Request GoContext.

Context {B T : Type} {B_Marshaler : json.Marshaler B}
        {T_Unmarshaler : json.Unmarshaler T}.

Variable c : Client GoContext.
Variable ctx : GoContext.
Variables method path : string.
Variable body : option B.
Variable result : option T.
Variable w : World GoContext.

(** A call that cannot build its request returns the error at once and
    leaves the world as it is. *)
Lemma doRequest_not_sent (err : error) :
  buildRequest http_NewRequestWithContext c ctx method path body = inl err ->
  doRequest http_NewRequestWithContext c ctx method path body result w
  = (Some err, result, w).
Proof.
  unfold buildRequest, doRequest.
  destruct (marshalBody body) as [e | bodyReader].
  - intros [= <-]. reflexivity.
  - destruct (http_NewRequestWithContext _ _ _ _) as [e | req].
    + intros [= <-]. reflexivity.
    + discriminate.
Qed.

(** A call that builds [req] calls [Do] with [req], once; what it
    returns is decided by the answer. *)
Lemma doRequest_sent (req : http.Request GoContext) :
  buildRequest http_NewRequestWithContext c ctx method path body = inr req ->
  doRequest http_NewRequestWithContext c ctx method path body result w =
  let w' := afterDo c w req in
  match fst (exchange (httpClient c) w req) with
  | inl err => (Some (fmt.Errorf_w "failed to perform request: " err), result, w')
  | inr resp =>
      match io.ReadAll (http.Body resp) with
      | inl err =>
          (Some (fmt.Errorf_w "failed to read response body: " err), result, w')
      | inr respBody =>
          if isFailure (http.RespStatusCode resp) then
            (Some (httpError {| StatusCode := http.RespStatusCode resp;
                                Message := string_of_list_byte respBody;
                                Timestamp := clock w' |}),
             result, w')
          else
            match result with
            | Some v =>
                if (0 <? List.length respBody)%nat then
                  match json.Unmarshal respBody v with
                  | (v', Some err) =>
                      (Some (fmt.Errorf_w "failed to unmarshal response: " err),
                       Some v', w')
                  | (v', None) => (None, Some v', w')
                  end
                else (None, result, w')
            | None => (None, result, w')
            end
      end
  end.
Proof.
  unfold buildRequest, doRequest, afterDo.
  destruct (marshalBody body) as [e | bodyReader]; [discriminate |].
  destruct (http_NewRequestWithContext _ _ _ _) as [e | req0]; [discriminate |].
  intros [= <-].
  unfold bind, Do, ret, Now.
  destruct (exchange _ _ _) as [[err | resp] t]; cbn [fst snd]; [reflexivity |].
  destruct (io.ReadAll _) as [err | respBody]; [reflexivity |].
  destruct (isFailure _); [reflexivity |].
  destruct result as [v |]; [| reflexivity].
  destruct (0 <? List.length respBody)%nat; [| reflexivity].
  destruct (json.Unmarshal respBody v) as [v' [err |]]; reflexivity.
Qed.

Lemma isFailure_spec (status : Z) :
  isFailure status = true <-> status < 200 \/ 300 <= status.
Proof.
  unfold isFailure.
  rewrite orb_true_iff, Z.ltb_lt, Z.geb_le. reflexivity.
Qed.

Lemma isFailure_2xx (status : Z) :
  200 <= status < 300 -> isFailure status = false.
Proof.
  intros Hs. destruct (isFailure status) eqn:E; [| reflexivity].
  apply isFailure_spec in E. lia.
Qed.

(** C1. A response whose status lies outside [200,300) makes [doRequest]
    return an [HTTPError]: its [StatusCode] is the status of the response,
    its [Message] is made of the bytes of the response body, one for one,
    and its [Timestamp] is the clock reading after the exchange.  The
    result target is returned as it was handed over. *)
Theorem doRequest_api_error
    (req : http.Request GoContext) (status : Z) (respBody : list byte) :
  buildRequest http_NewRequestWithContext c ctx method path body = inr req ->
  answered c w req status respBody ->
  status < 200 \/ 300 <= status ->
  exists (e : HTTPError) (w' : World GoContext),
    doRequest http_NewRequestWithContext c ctx method path body result w
    = (Some (httpError e), result, w')
    /\ StatusCode e = status
    /\ Message e = string_of_list_byte respBody
    /\ list_byte_of_string (Message e) = respBody
    /\ Timestamp e = clock w'
    /\ clock w' = snd (exchange (httpClient c) w req).
Proof.
  intros Hreq (resp & Hresp & Hstatus & Hread) Hout.
  rewrite (doRequest_sent Hreq). cbn zeta.
  rewrite Hresp, Hread, Hstatus.
  apply isFailure_spec in Hout. rewrite Hout.
  eexists; eexists; split; [reflexivity |].
  cbn. repeat split.
  apply list_byte_of_string_of_list_byte.
Qed.

(** On a response with a status in [200,300) and a body that is not
    empty, a call with a result target hands the body to [json.Unmarshal]:
    the target holds what [json.Unmarshal] leaves in it, and the call
    returns no error when [json.Unmarshal] accepts the body and the error
    [failed to unmarshal response] when it does not. *)
Lemma doRequest_decodes
    (req : http.Request GoContext) (status : Z) (respBody : list byte) (v : T) :
  buildRequest http_NewRequestWithContext c ctx method path body = inr req ->
  answered c w req status respBody ->
  200 <= status < 300 ->
  respBody <> [] ->
  result = Some v ->
  doRequest http_NewRequestWithContext c ctx method path body result w =
  (match snd (json.Unmarshal respBody v) with
   | None => None
   | Some err => Some (fmt.Errorf_w "failed to unmarshal response: " err)
   end,
   Some (fst (json.Unmarshal respBody v)),
   afterDo c w req).
Proof.
  intros Hreq (resp & Hresp & Hstatus & Hread) Hok Hbody Hresult.
  rewrite (doRequest_sent Hreq). cbn zeta.
  rewrite Hresp, Hread, Hstatus, (isFailure_2xx Hok), Hresult.
  destruct respBody as [| b bs]; [contradiction |].
  cbn [List.length Nat.ltb Nat.leb].
  destruct (json.Unmarshal (b :: bs) v) as [v' [err |]]; reflexivity.
Qed.

(** C5. On a response with a status in [200,300) and an empty body the
    call returns no error and the result target is as it was handed over:
    nothing is decoded. *)
Theorem doRequest_empty_body (req : http.Request GoContext) (status : Z) (v : T) :
  buildRequest http_NewRequestWithContext c ctx method path body = inr req ->
  answered c w req status [] ->
  200 <= status < 300 ->
  result = Some v ->
  doRequest http_NewRequestWithContext c ctx method path body result w
  = (None, Some v, afterDo c w req).
Proof.
  intros Hreq (resp & Hresp & Hstatus & Hread) Hok Hresult.
  rewrite (doRequest_sent Hreq). cbn zeta.
  rewrite Hresp, Hread, Hstatus, (isFailure_2xx Hok), Hresult.
  reflexivity.
Qed.

(** C8, as amended.  A call of [doRequest] calls [c.httpClient.Do] at most
    once, and never again with the same request: exactly once when the body
    is marshalled and the request is built, and not at all when one of the
    two fails.  A body that cannot be read to its end is an error, and no
    part of it is used.  How many exchanges on the network the one call of
    [Do] takes is not said: that is the HTTP client's matter. *)
Theorem doRequest_calls_Do_at_most_once :
  calls (snd (doRequest http_NewRequestWithContext c ctx method path body result w)) =
  match buildRequest http_NewRequestWithContext c ctx method path body with
  | inl _ => calls w
  | inr req => req :: calls w
  end
  /\ forall (req : http.Request GoContext) (resp : http.Response) (err : error),
       buildRequest http_NewRequestWithContext c ctx method path body = inr req ->
       fst (exchange (httpClient c) w req) = inr resp ->
       io.ReadAll (http.Body resp) = inl err ->
       fst (doRequest http_NewRequestWithContext c ctx method path body result w)
       = (Some (fmt.Errorf_w "failed to read response body: " err), result).
Proof.
  split.
  2: { intros req resp err Hreq Hresp Hread.
       rewrite (doRequest_sent Hreq). cbn zeta. rewrite Hresp, Hread. reflexivity. }
  destruct (buildRequest http_NewRequestWithContext c ctx method path body)
    as [err | req] eqn:Hreq.
  - rewrite (doRequest_not_sent Hreq). reflexivity.
  - rewrite (doRequest_sent Hreq). cbn zeta.
    destruct (fst (exchange (httpClient c) w req)) as [err | resp]; [reflexivity |].
    destruct (io.ReadAll _) as [err | respBody]; [reflexivity |].
    destruct (isFailure _); [reflexivity |].
    destruct result as [v |]; [| reflexivity].
    destruct (0 <? List.length respBody)%nat; [| reflexivity].
    destruct (json.Unmarshal respBody v) as [v' [err |]]; reflexivity.
Qed.

End Dispatcher.

Section Atomicity.

Variable GoContext : Type.
Variable http_NewRequestWithContext :
  GoContext -> string -> string -> option (list byte) ->
  error + http.Request GoContext.

Context {B T : Type} {B_Marshaler : json.Marshaler B}.

(** The errors made by [fmt.Errorf] are not [HTTPError]s. *)
Lemma Errorf_w_not_httpError (prefix : string) (err : error) (e : HTTPError) :
  Some (fmt.Errorf_w prefix err) <> Some (httpError e).
Proof. unfold fmt.Errorf_w. discriminate. Qed.

Lemma buildRequest_error_not_httpError
    (c : Client GoContext) (ctx : GoContext) (method path : string)
    (body : option B) (err : error) (e : HTTPError) :
  buildRequest http_NewRequestWithContext c ctx method path body = inl err ->
  Some err <> Some (httpError e).
Proof.
  unfold buildRequest, marshalBody.
  destruct body as [b |].
  - destruct (json.Marshal b) as [e1 | jsonData].
    + intros [= <-]. apply Errorf_w_not_httpError.
    + destruct (http_NewRequestWithContext _ _ _ _); intros [= <-].
      apply Errorf_w_not_httpError.
  - destruct (http_NewRequestWithContext _ _ _ _); intros [= <-].
    apply Errorf_w_not_httpError.
Qed.

(** C9. A call that returns an [HTTPError] leaves the result target as it
    was handed over, and it does not decode: with any other function in the
    place of [json.Unmarshal] the call comes out the same. *)
Theorem api_error_leaves_target
    (decode : json.Unmarshaler T)
    (c : Client GoContext) (ctx : GoContext) (method path : string)
    (body : option B) (result : option T) (w : World GoContext)
    (e : HTTPError) :
  fst (fst (doRequest (T_Unmarshaler := decode) http_NewRequestWithContext
              c ctx method path body result w))
    = Some (httpError e) ->
  snd (fst (doRequest (T_Unmarshaler := decode) http_NewRequestWithContext
              c ctx method path body result w))
    = result
  /\ forall decode' : json.Unmarshaler T,
       doRequest (T_Unmarshaler := decode') http_NewRequestWithContext
         c ctx method path body result w
       = doRequest (T_Unmarshaler := decode) http_NewRequestWithContext
           c ctx method path body result w.
Proof.
  destruct (buildRequest http_NewRequestWithContext c ctx method path body)
    as [err | req] eqn:Hreq.
  - rewrite (doRequest_not_sent (T_Unmarshaler := decode) _ _ _ _ _ _ _ _ Hreq).
    cbn [fst snd]. intros He.
    destruct (buildRequest_error_not_httpError _ _ _ _ _ Hreq He).
  - rewrite (doRequest_sent (T_Unmarshaler := decode) _ _ _ _ _ _ _ _ Hreq).
    cbn zeta.
    destruct (fst (exchange (httpClient c) w req)) as [err | resp] eqn:Hresp.
    { cbn [fst snd]. intros He. destruct (Errorf_w_not_httpError He). }
    destruct (io.ReadAll (http.Body resp)) as [err | respBody] eqn:Hread.
    { cbn [fst snd]. intros He. destruct (Errorf_w_not_httpError He). }
    destruct (isFailure (http.RespStatusCode resp)) eqn:Hstatus.
    + intros _. split; [reflexivity |].
      intros decode'.
      rewrite (doRequest_sent (T_Unmarshaler := decode') _ _ _ _ _ _ _ _ Hreq).
      cbn zeta. rewrite Hresp, Hread, Hstatus. reflexivity.
    + destruct result as [v |]; [| discriminate].
      destruct (0 <? List.length respBody)%nat; [| discriminate].
      destruct (json.Unmarshal respBody v) as [v' [err |]]; cbn [fst snd].
      * intros He. destruct (Errorf_w_not_httpError He).
      * discriminate.
Qed.

End Atomicity.

(** ** The dispatcher against a test server *)

Lemma httptest_answered (status : Z) (respBody : list byte)
    (w : World unit) (req : http.Request unit) :
  answered (httptest.client status respBody) w req status respBody.
Proof.
  exists {| http.RespStatusCode := status;
            http.Body := {| io.delivered := respBody; io.failure := None |} |}.
  repeat split.
Qed.

(** The scenario of the specification: a collection that is missing, and
    a server that answers 404 with [Collection not found]. *)
Lemma doRequest_api_error_witness :
  exists (e : HTTPError) (w' : World unit),
    httptest.get 404 httptest.not_found_body "/api/v2/collections/missing" "before"
    = (Some (httpError e), Some "before", w')
    /\ StatusCode e = 404
    /\ Message e = "Collection not found"
    /\ list_byte_of_string (Message e) = httptest.not_found_body
    /\ Timestamp e = clock w'
    /\ clock w' = 1.
Proof.
  apply (@doRequest_api_error unit httptest.NewRequestWithContext nilBody string
           _ _ (httptest.client 404 httptest.not_found_body) tt
           "GET" "/api/v2/collections/missing" None (Some "before") httptest.start
           (httptest.get_request "/api/v2/collections/missing")
           404 httptest.not_found_body).
  - reflexivity.
  - apply httptest_answered.
  - right. lia.
Defined.

(** [GET /api/v2/version] against a server that answers 200 with the JSON
    text of the string [0.4.24], by the decoder alone. *)
Lemma doRequest_decodes_version :
  httptest.get 200 httptest.version_body "/api/v2/version" ""
  = (None, Some "0.4.24",
     {| calls := [httptest.get_request "/api/v2/version"]; clock := 1 |}).
Proof.
  unfold httptest.get.
  rewrite (@doRequest_decodes unit httptest.NewRequestWithContext nilBody string
             _ _ (httptest.client 200 httptest.version_body) tt
             "GET" "/api/v2/version" None (Some "") httptest.start
             (httptest.get_request "/api/v2/version")
             200 httptest.version_body "").
  - reflexivity.
  - reflexivity.
  - apply httptest_answered.
  - lia.
  - discriminate.
  - reflexivity.
Defined.

(** [Version] in the same scenario. *)
Example Version_0_4_24 :
  fst (Version httptest.NewRequestWithContext
         (httptest.client 200 httptest.version_body) tt httptest.start)
  = ("0.4.24", None).
Proof. reflexivity. Qed.

(** A response [200] whose body is the JSON number [1], for a string
    target: the call returns an error, and the target holds no value equal
    to the JSON of the response. *)
Lemma doRequest_number_for_string :
  fst (httptest.get 200 [x31] "/api/v2/version" "")
  = (Some (fmt.Errorf_w "failed to unmarshal response: " json_string.rejected),
     Some "")
  /\ fst (fst (httptest.get 200 [x31] "/api/v2/version" "")) <> None.
Proof. split; [reflexivity | discriminate]. Qed.

(** A server that answers 200 with nothing in the body. *)
Lemma doRequest_empty_body_witness :
  httptest.get 200 [] "/api/v2/version" "before"
  = (None, Some "before",
     {| calls := [httptest.get_request "/api/v2/version"]; clock := 1 |}).
Proof.
  apply (@doRequest_empty_body unit httptest.NewRequestWithContext nilBody string
           _ _ (httptest.client 200 []) tt
           "GET" "/api/v2/version" None (Some "before") httptest.start
           (httptest.get_request "/api/v2/version") 200 "before").
  - reflexivity.
  - apply httptest_answered.
  - lia.
  - reflexivity.
Defined.

(** A body that [json.Marshal] refuses: the call returns before the
    HTTP client is reached: [Do] is not called. *)
Lemma doRequest_unmarshallable_body_no_call :
  httptest.post_chan 200 [] "/api/v2/collections/c1/add"
  = (Some (fmt.Errorf_w "failed to marshal request body: "
             (errorString "json: unsupported type: chan int")),
     None, httptest.start)
  /\ calls (snd (httptest.post_chan 200 [] "/api/v2/collections/c1/add")) = []
  /\ List.length (calls (snd (httptest.post_chan 200 [] "/api/v2/collections/c1/add")))
     <> 1%nat.
Proof. repeat split. discriminate. Qed.

Lemma api_error_leaves_target_witness :
  snd (fst (httptest.get 404 httptest.not_found_body
              "/api/v2/collections/missing" "before"))
  = Some "before"
  /\ forall decode' : json.Unmarshaler string,
       doRequest (T_Unmarshaler := decode') httptest.NewRequestWithContext
         (httptest.client 404 httptest.not_found_body) tt
         "GET" "/api/v2/collections/missing" (@None nilBody) (Some "before")
         httptest.start
       = httptest.get 404 httptest.not_found_body
           "/api/v2/collections/missing" "before".
Proof.
  apply (@api_error_leaves_target unit httptest.NewRequestWithContext
           nilBody string _ httptest.string_Unmarshaler
           (httptest.client 404 httptest.not_found_body) tt
           "GET" "/api/v2/collections/missing" None (Some "before") httptest.start
           {| StatusCode := 404;
              Message := "Collection not found";
              Timestamp := 1 |}).
  reflexivity.
Defined.

(** ** The error model *)

(** C10. The error string of an [HTTPError] is its [Message]; the status
    code and the timestamp have no part in it. *)
Theorem HTTPError_Error_is_Message (e : HTTPError) :
  HTTPError_Error e = Message e
  /\ Error (httpError e) = Message e
  /\ forall (status : Z) (timestamp : time.Time),
       HTTPError_Error {| StatusCode := status;
                          Message := Message e;
                          Timestamp := timestamp |}
       = HTTPError_Error e.
Proof. repeat split. Qed.

(** ** Strings *)

Section Strings.

Local Open Scope nat_scope.

Lemma length_append (p t : string) :
  String.length (p ++ t) = String.length p + String.length t.
Proof. induction p as [| a p IH]; cbn; [reflexivity | now rewrite IH]. Qed.

Lemma append_assoc (p q t : string) : ((p ++ q) ++ t = p ++ (q ++ t))%string.
Proof. induction p as [| a p IH]; cbn; [reflexivity | now rewrite IH]. Qed.

Lemma substring_whole (t : string) : substring 0 (String.length t) t = t.
Proof. induction t as [| a t IH]; cbn; [reflexivity | now rewrite IH]. Qed.

Lemma substring_prefix (p t : string) :
  substring 0 (String.length p) (p ++ t) = p.
Proof.
  induction p as [| a p IH]; cbn.
  - destruct t; reflexivity.
  - now rewrite IH.
Qed.

Lemma substring_suffix (p t : string) :
  substring (String.length p) (String.length t) (p ++ t) = t.
Proof.
  induction p as [| a p IH]; cbn; [apply substring_whole | exact IH].
Qed.

(** A string is its first [n] bytes followed by the others. *)
Lemma substring_split (s : string) (n : nat) :
  n <= String.length s ->
  s = (substring 0 n s ++ substring n (String.length s - n) s)%string.
Proof.
  revert n. induction s as [| a s IH]; intros [| n] Hn; cbn in *.
  - reflexivity.
  - lia.
  - now rewrite substring_whole.
  - f_equal. apply IH. lia.
Qed.

Lemma HasSuffix_app (p t : string) : strings.HasSuffix (p ++ t) t = true.
Proof.
  unfold strings.HasSuffix. rewrite length_append.
  replace (String.length p + String.length t - String.length t)
    with (String.length p) by lia.
  rewrite substring_suffix, String.eqb_refl, andb_true_r.
  apply Nat.leb_le. lia.
Qed.

Lemma HasSuffix_inv (s t : string) :
  strings.HasSuffix s t = true ->
  s = (substring 0 (String.length s - String.length t) s ++ t)%string.
Proof.
  unfold strings.HasSuffix. intros H.
  apply andb_true_iff in H. destruct H as [Hlen Heq].
  apply Nat.leb_le in Hlen. apply String.eqb_eq in Heq.
  rewrite (substring_split s (n := String.length s - String.length t)) at 1 by lia.
  replace (String.length s - (String.length s - String.length t))
    with (String.length t) by lia.
  now rewrite Heq.
Qed.

Lemma TrimSuffix_app (p t : string) : strings.TrimSuffix (p ++ t) t = p.
Proof.
  unfold strings.TrimSuffix. rewrite HasSuffix_app, length_append.
  replace (String.length p + String.length t - String.length t)
    with (String.length p) by lia.
  apply substring_prefix.
Qed.

Lemma TrimSuffix_without (s t : string) :
  strings.HasSuffix s t = false -> strings.TrimSuffix s t = s.
Proof. unfold strings.TrimSuffix. now intros ->. Qed.

(** One trailing slash is removed: none is left unless there were two. *)
Lemma TrimSuffix_slash (s : string) :
  strings.HasSuffix s "//" = false ->
  strings.HasSuffix (strings.TrimSuffix s "/") "/" = false.
Proof.
  intros Htwo.
  destruct (strings.HasSuffix s "/") eqn:Hone.
  - apply HasSuffix_inv in Hone.
    set (p := substring 0 (String.length s - String.length "/") s) in Hone.
    rewrite Hone, TrimSuffix_app.
    destruct (strings.HasSuffix p "/") eqn:Hp; [| reflexivity].
    apply HasSuffix_inv in Hp.
    rewrite Hp, append_assoc in Hone. cbn [append] in Hone.
    rewrite Hone, HasSuffix_app in Htwo. discriminate.
  - now rewrite TrimSuffix_without.
Qed.

End Strings.

(** ** Construction of the client *)

Section Construction.

Variable GoContext : Type.
Variable DefaultTransport :
  World GoContext -> http.Request GoContext -> (error + http.Response) * time.Time.

Implicit Types (c : Client GoContext) (a b m : Setting GoContext).

(** The options are applied from left to right. *)
Lemma NewClient_snoc (opts : list (ClientOption GoContext))
    (opt : ClientOption GoContext) :
  NewClient DefaultTransport (opts ++ [opt]) = opt (NewClient DefaultTransport opts).
Proof. unfold NewClient. rewrite fold_left_app. reflexivity. Qed.

Lemma option_absorbs a b c :
  sameField a b = true -> option_of b (option_of a c) = option_of b c.
Proof. destruct a, b; cbn; (discriminate || reflexivity). Qed.

Lemma option_commutes a m c :
  sameField a m = false -> option_of m (option_of a c) = option_of a (option_of m c).
Proof. destruct a, m; cbn; (discriminate || reflexivity). Qed.

(** An option that is followed, some options later, by an option for the
    same field has no effect. *)
Lemma option_overridden a b (mid : list (Setting GoContext)) c :
  sameField a b = true ->
  option_of b (fold_left (fun c opt => opt c) (map option_of mid) (option_of a c))
  = option_of b (fold_left (fun c opt => opt c) (map option_of mid) c).
Proof.
  intros Hab. revert c.
  induction mid as [| m mid IH]; intros c; cbn [map fold_left].
  - now apply option_absorbs.
  - destruct (sameField a m) eqn:Ham.
    + now rewrite option_absorbs.
    + rewrite option_commutes by assumption. apply IH.
Qed.

(** C7. [NewClient] is a total function.  Without options the client has
    the base address [http://localhost:8000], the tenant [default_tenant],
    the database [default_database] and a transport with a timeout of 30
    seconds.  The options are applied in the order supplied, the last option
    for a field decides the field, and an earlier option for the same field
    is without effect. *)
Theorem NewClient_options
    (opts : list (ClientOption GoContext)) (opt : ClientOption GoContext)
    (pre mid post : list (Setting GoContext)) a b
    (u t d : string) (h : http_Client GoContext) :
  sameField a b = true ->
  (baseURL (NewClient DefaultTransport []) = "http://localhost:8000"
   /\ tenant (NewClient DefaultTransport []) = "default_tenant"
   /\ database (NewClient DefaultTransport []) = "default_database"
   /\ Timeout (httpClient (NewClient DefaultTransport [])) = 30 * 1000000000)
  /\ NewClient DefaultTransport (opts ++ [opt])
     = opt (NewClient DefaultTransport opts)
  /\ (baseURL (NewClient DefaultTransport (opts ++ [WithBaseURL u]))
        = strings.TrimSuffix u "/"
      /\ httpClient (NewClient DefaultTransport (opts ++ [WithHTTPClient h])) = h
      /\ tenant (NewClient DefaultTransport (opts ++ [WithTenant t])) = t
      /\ database (NewClient DefaultTransport (opts ++ [WithDatabase d])) = d)
  /\ NewClient DefaultTransport (map option_of (pre ++ a :: mid ++ b :: post))
     = NewClient DefaultTransport (map option_of (pre ++ mid ++ b :: post)).
Proof.
  intros Hab. split; [repeat split |]. split; [apply NewClient_snoc |].
  split; [rewrite !NewClient_snoc; repeat split |].
  unfold NewClient.
  rewrite !map_app, !fold_left_app. cbn [map fold_left].
  rewrite !map_app, !fold_left_app. cbn [map fold_left].
  now rewrite option_overridden.
Qed.

(** C6, as amended.  [WithBaseURL] removes one trailing slash: a base
    address that does not end in two slashes is stored without trailing
    slash, and the URL of every request is the stored address followed by
    the path. *)
Theorem WithBaseURL_strips_one_slash
    (opts : list (ClientOption GoContext)) (s path : string) :
  strings.HasSuffix s "//" = false ->
  baseURL (NewClient DefaultTransport (opts ++ [WithBaseURL s]))
    = strings.TrimSuffix s "/"
  /\ (forall p : string,
        s = p ++ "/" ->
        baseURL (NewClient DefaultTransport (opts ++ [WithBaseURL s])) = p)
  /\ strings.HasSuffix
       (baseURL (NewClient DefaultTransport (opts ++ [WithBaseURL s]))) "/" = false
  /\ requestURL (NewClient DefaultTransport (opts ++ [WithBaseURL s])) path
     = strings.TrimSuffix s "/" ++ path.
Proof.
  intros Htwo. unfold requestURL. rewrite NewClient_snoc. cbn [WithBaseURL baseURL].
  repeat split.
  - intros p ->. apply TrimSuffix_app.
  - now apply TrimSuffix_slash.
Qed.

End Construction.

Lemma NewClient_options_witness :
  NewClient httptest.Offline
    (map option_of [SetTenant "first"; SetDatabase "db"; SetTenant "second"])
  = NewClient httptest.Offline
      (map option_of [SetDatabase "db"; SetTenant "second"])
  /\ tenant (NewClient httptest.Offline
               [WithTenant "first"; WithDatabase "db"; WithTenant "second"])
     = "second".
Proof.
  split; [| reflexivity].
  apply (NewClient_options httptest.Offline [] (WithTenant "t")
           [] [SetDatabase "db"] []
           (SetTenant "first") (SetTenant "second")
           "u" "t" "d" (httptest.Server 200 [])).
  reflexivity.
Defined.

(** The scenario of the specification: the base address
    [http://example.com/]. *)
Lemma WithBaseURL_strips_one_slash_witness :
  baseURL (NewClient httptest.Offline [WithBaseURL "http://example.com/"])
  = "http://example.com"
  /\ requestURL (NewClient httptest.Offline [WithBaseURL "http://example.com/"])
       "/api/v2/version"
     = "http://example.com/api/v2/version".
Proof.
  pose proof (@WithBaseURL_strips_one_slash unit httptest.Offline []
                "http://example.com/" "/api/v2/version" eq_refl)
    as (Hbase & _ & _ & Hurl).
  split; [exact Hbase | exact Hurl].
Defined.

(** A base address with two trailing slashes keeps one of them. *)
Lemma WithBaseURL_two_slashes :
  baseURL (NewClient httptest.Offline [WithBaseURL "http://example.com//"])
  = "http://example.com/"
  /\ strings.HasSuffix
       (baseURL (NewClient httptest.Offline [WithBaseURL "http://example.com//"]))
       "/" = true.
Proof. split; reflexivity. Qed.

(** ** Escaping *)

Section Escaping.

(** Escaping then unescaping one byte, in the mode of query components. *)
Lemma unescape_escape_query_step (c : ascii) (s : string) :
  url.unescape (url.escape (String c s) url.encodeQueryComponent)
               url.encodeQueryComponent
  = option_map (String c)
      (url.unescape (url.escape s url.encodeQueryComponent)
                    url.encodeQueryComponent).
Proof. destruct c as [[] [] [] [] [] [] [] []]; reflexivity. Qed.

(** [url.QueryUnescape] undoes [url.QueryEscape]. *)
Lemma QueryUnescape_QueryEscape (s : string) :
  url.QueryUnescape (url.QueryEscape s) = Some s.
Proof.
  unfold url.QueryUnescape, url.QueryEscape.
  induction s as [| c s IH]; [reflexivity |].
  rewrite unescape_escape_query_step, IH. reflexivity.
Qed.

(** Unescaping as a path segment what was escaped as a query component
    gives the byte back, except that a space comes back as [+]. *)
Lemma unescape_path_escape_query_step (c : ascii) (s : string) :
  url.unescape (url.escape (String c s) url.encodeQueryComponent)
               url.encodePathSegment
  = option_map (String (if Ascii.eqb c " " then "+"%char else c))
      (url.unescape (url.escape s url.encodeQueryComponent)
                    url.encodePathSegment).
Proof. destruct c as [[] [] [] [] [] [] [] []]; reflexivity. Qed.

(** A segment without space that [url.QueryEscape] has escaped is read
    back by a URL parser as it was. *)
Lemma PathUnescape_QueryEscape (s : string) :
  url.contains " " s = false ->
  url.PathUnescape (url.QueryEscape s) = Some s.
Proof.
  unfold url.PathUnescape, url.QueryEscape.
  induction s as [| c s IH]; [reflexivity |].
  cbn [url.contains]. intros H. apply orb_false_iff in H. destruct H as [Hc Hs].
  rewrite unescape_path_escape_query_step, (IH Hs), Hc. reflexivity.
Qed.

(** [url.QueryEscape] writes no slash. *)
Lemma QueryEscape_no_slash (s : string) :
  url.contains "/" (url.QueryEscape s) = false.
Proof.
  unfold url.QueryEscape.
  induction s as [| c s IH]; [reflexivity |].
  destruct c as [[] [] [] [] [] [] [] []]; exact IH.
Qed.

(** [url.PathEscape] would give every segment back, and writes no slash. *)
Lemma unescape_escape_path_step (c : ascii) (s : string) :
  url.unescape (url.escape (String c s) url.encodePathSegment) url.encodePathSegment
  = option_map (String c)
      (url.unescape (url.escape s url.encodePathSegment) url.encodePathSegment).
Proof. destruct c as [[] [] [] [] [] [] [] []]; reflexivity. Qed.

Lemma PathUnescape_PathEscape (s : string) :
  url.PathUnescape (url.PathEscape s) = Some s.
Proof.
  unfold url.PathUnescape, url.PathEscape.
  induction s as [| c s IH]; [reflexivity |].
  rewrite unescape_escape_path_step, IH. reflexivity.
Qed.

Lemma PathEscape_no_slash (s : string) :
  url.contains "/" (url.PathEscape s) = false.
Proof.
  unfold url.PathEscape.
  induction s as [| c s IH]; [reflexivity |].
  destruct c as [[] [] [] [] [] [] [] []]; exact IH.
Qed.

Lemma QueryEscape_nonempty (s : string) :
  s <> "" -> url.QueryEscape s <> "".
Proof.
  destruct s as [| c s]; [congruence |]. intros _.
  unfold url.QueryEscape. cbn [url.escape].
  destruct (_ && _); [discriminate |].
  destruct (url.shouldEscape _ _); discriminate.
Qed.

End Escaping.

(** ** Resource paths *)

Section Paths.

Variable GoContext : Type.

Implicit Types (c : Client GoContext).

Lemma split_slash_segment (a rest : string) :
  url.contains "/" a = false ->
  url.split_slash (a ++ String "/" rest) = a :: url.split_slash rest.
Proof.
  induction a as [| x a IH]; cbn [append url.contains url.split_slash].
  - reflexivity.
  - intros H. apply orb_false_iff in H. destruct H as [Hx Ha].
    rewrite Hx, (IH Ha). reflexivity.
Qed.

Lemma split_slash_last (a : string) :
  url.contains "/" a = false -> url.split_slash a = [a].
Proof.
  induction a as [| x a IH]; cbn [url.contains url.split_slash].
  - reflexivity.
  - intros H. apply orb_false_iff in H. destruct H as [Hx Ha].
    rewrite Hx, (IH Ha). reflexivity.
Qed.

(** What [ListCollections] gets right: a tenant and a database without
    space are escaped so that a URL parser finds them again, each in its
    own segment. *)
Lemma ListCollections_path_segments c (tenant' database' : string) :
  tenant' <> "" -> database' <> "" ->
  url.contains " " tenant' = false ->
  url.contains " " database' = false ->
  url.segments (ListCollections_path c tenant' database')
  = Some [""; "api"; "v2"; "tenants"; tenant'; "databases"; database'; "collections"].
Proof.
  intros Ht Hd Hts Hds.
  unfold ListCollections_path, url.segments.
  apply String.eqb_neq in Ht, Hd. rewrite Ht, Hd.
  change ("/api/v2/tenants/" ++ url.QueryEscape tenant' ++ "/databases/"
            ++ url.QueryEscape database' ++ "/collections")
    with ("" ++ String "/" ("api" ++ String "/" ("v2" ++ String "/"
            ("tenants" ++ String "/" (url.QueryEscape tenant' ++ String "/"
               ("databases" ++ String "/" (url.QueryEscape database' ++ String "/"
                  "collections"))))))).
  rewrite !split_slash_segment by (reflexivity || apply QueryEscape_no_slash).
  rewrite split_slash_last by reflexivity.
  cbn [map].
  rewrite !PathUnescape_QueryEscape by assumption.
  reflexivity.
Qed.

(** C4, as amended.  In the operations that take the tenant and the
    database as strings, an empty string stands for the default of the
    client: the path is the one of the default, it holds the escaped default
    in the slot, and the slot is not empty when the default is not.
    [CreateDatabase] and [GetDatabase] use the default tenant when the
    variadic argument is left out, and the tenant they are given otherwise.
    [doRequest] does not read the defaults. *)
Theorem empty_scope_uses_default c (name tenant' database' : string) :
  tenant c <> "" ->
  database c <> "" ->
  (ListCollections_path c "" database' = ListCollections_path c (tenant c) database'
   /\ ListCollections_path c tenant' "" = ListCollections_path c tenant' (database c)
   /\ CountCollections_path c "" database' = CountCollections_path c (tenant c) database'
   /\ CountCollections_path c tenant' "" = CountCollections_path c tenant' (database c)
   /\ CreateCollection_path c "" database' = CreateCollection_path c (tenant c) database'
   /\ CreateCollection_path c tenant' "" = CreateCollection_path c tenant' (database c)
   /\ GetCollection_path c name "" database'
      = GetCollection_path c name (tenant c) database'
   /\ GetCollection_path c name tenant' ""
      = GetCollection_path c name tenant' (database c)
   /\ DeleteCollection_path c name "" database'
      = DeleteCollection_path c name (tenant c) database'
   /\ DeleteCollection_path c name tenant' ""
      = DeleteCollection_path c name tenant' (database c))
  /\ (ListCollections_path c "" ""
      = "/api/v2/tenants/" ++ url.QueryEscape (tenant c)
          ++ "/databases/" ++ url.QueryEscape (database c) ++ "/collections"
      /\ CountCollections_path c "" ""
         = "/api/v2/tenants/" ++ url.QueryEscape (tenant c)
             ++ "/databases/" ++ url.QueryEscape (database c) ++ "/collections_count"
      /\ CreateCollection_path c "" ""
         = "/api/v2/tenants/" ++ url.QueryEscape (tenant c)
             ++ "/databases/" ++ url.QueryEscape (database c) ++ "/collections"
      /\ GetCollection_path c name "" ""
         = "/api/v2/tenants/" ++ url.QueryEscape (tenant c)
             ++ "/databases/" ++ url.QueryEscape (database c)
             ++ "/collections/" ++ name
      /\ DeleteCollection_path c name "" ""
         = "/api/v2/tenants/" ++ url.QueryEscape (tenant c)
             ++ "/databases/" ++ url.QueryEscape (database c)
             ++ "/collections/" ++ name)
  /\ (CreateDatabase_path c []
      = "/api/v2/tenants/" ++ url.QueryEscape (tenant c) ++ "/databases"
      /\ GetDatabase_path c name []
         = "/api/v2/tenants/" ++ url.QueryEscape (tenant c) ++ "/databases/" ++ name
      /\ forall (given : string) (others : list string),
           CreateDatabase_path c (given :: others)
           = "/api/v2/tenants/" ++ url.QueryEscape given ++ "/databases"
           /\ GetDatabase_path c name (given :: others)
              = "/api/v2/tenants/" ++ url.QueryEscape given ++ "/databases/" ++ name)
  /\ (url.QueryEscape (tenant c) <> "" /\ url.QueryEscape (database c) <> "")
  /\ forall (http_NewRequestWithContext :
               GoContext -> string -> string -> option (list byte) ->
               error + http.Request GoContext)
            (B T : Type) (B_Marshaler : json.Marshaler B)
            (T_Unmarshaler : json.Unmarshaler T)
            (ctx : GoContext) (method path : string)
            (body : option B) (result : option T) (w : World GoContext)
            (otherTenant otherDatabase : string),
       doRequest http_NewRequestWithContext
         (WithTenant otherTenant (WithDatabase otherDatabase c))
         ctx method path body result w
       = doRequest http_NewRequestWithContext c ctx method path body result w.
Proof.
  intros Ht Hd.
  unfold ListCollections_path, CountCollections_path, CreateCollection_path,
    GetCollection_path, DeleteCollection_path, CreateDatabase_path,
    GetDatabase_path, tenantName.
  cbn [String.eqb].
  split; [| split; [| split; [| split]]].
  - destruct (tenant c =? "")%string, (database c =? "")%string; repeat split.
  - repeat split.
  - repeat split.
  - split; apply QueryEscape_nonempty; assumption.
  - reflexivity.
Qed.

End Paths.

(** The default client of the examples. *)
Lemma empty_scope_uses_default_witness :
  ListCollections_path (NewClient httptest.Offline []) "" ""
  = "/api/v2/tenants/default_tenant/databases/default_database/collections"
  /\ CreateDatabase_path (NewClient httptest.Offline []) []
     = "/api/v2/tenants/default_tenant/databases".
Proof.
  pose proof (@empty_scope_uses_default unit (NewClient httptest.Offline [])
                "name" "t" "d")
    as (_ & (Hlist & _) & (Hcreate & _) & _).
  - discriminate.
  - discriminate.
  - split; [exact Hlist | exact Hcreate].
Defined.

(** An empty tenant handed to [CreateDatabase], and an empty default
    tenant: in both cases the path has an empty segment. *)
Lemma CreateDatabase_path_empty_tenant :
  CreateDatabase_path (NewClient httptest.Offline []) [""]
  = "/api/v2/tenants//databases"
  /\ url.segments (CreateDatabase_path (NewClient httptest.Offline []) [""])
     = Some [""; "api"; "v2"; "tenants"; ""; "databases"]
  /\ ListCollections_path (NewClient httptest.Offline [WithTenant ""]) "" ""
     = "/api/v2/tenants//databases/default_database/collections".
Proof. repeat split. Qed.

(** C3, where the code departs from it.  [GetCollection] inserts the name
    of the collection as it is: with the name [a/b] the path has one segment
    more, and no segment is the name.  [ListCollections] escapes the tenant
    with [url.QueryEscape], which writes a space as [+]: the tenant
    [my tenant] is read back from the path as [my+tenant]. *)
Theorem GetCollection_path_name_not_escaped :
  GetCollection_path (NewClient httptest.Offline []) "a/b" "" ""
  = "/api/v2/tenants/default_tenant/databases/default_database/collections/a/b"
  /\ url.segments (GetCollection_path (NewClient httptest.Offline []) "a/b" "" "")
     = Some [""; "api"; "v2"; "tenants"; "default_tenant";
             "databases"; "default_database"; "collections"; "a"; "b"]
  /\ ListCollections_path (NewClient httptest.Offline []) "my tenant" ""
     = "/api/v2/tenants/my+tenant/databases/default_database/collections"
  /\ url.segments (ListCollections_path (NewClient httptest.Offline []) "my tenant" "")
     = Some [""; "api"; "v2"; "tenants"; "my+tenant";
             "databases"; "default_database"; "collections"].
Proof. repeat split. Qed.

(** ** Decoding a string

    What "equal to the JSON of the response" means for a string target:
    the literal of a string of plain bytes is decoded as that string. *)

Section Decoding.

Local Open Scope list_scope.

Lemma plain_step (b : byte) (fuel : nat) (rest : list byte) :
  json_string.plain b = true ->
  json_string.unquote (S fuel) (b :: rest)
  = json_string.emit [b] (json_string.unquote fuel rest).
Proof.
  unfold json_string.plain. intros H.
  repeat (apply andb_true_iff in H; destruct H as [H ?]).
  cbn [json_string.unquote].
  destruct (json_string.code b =? 34)%N; [discriminate |].
  destruct (json_string.code b =? 92)%N; [discriminate |].
  apply N.leb_le in H.
  destruct (json_string.code b <? 32)%N eqn:Hlow; [apply N.ltb_lt in Hlow; lia |].
  destruct (json_string.code b <? 128)%N; [reflexivity | discriminate].
Qed.

Lemma unquote_plain (s tail : list byte) (fuel : nat) :
  forallb json_string.plain s = true ->
  (List.length s < fuel)%nat ->
  json_string.unquote fuel (s ++ x22 :: tail) = Some (s, tail).
Proof.
  revert fuel. induction s as [| b s IH]; intros fuel Hs Hfuel.
  - destruct fuel as [| fuel]; [inversion Hfuel | reflexivity].
  - destruct fuel as [| fuel]; [inversion Hfuel |].
    cbn [forallb] in Hs. apply andb_true_iff in Hs. destruct Hs as [Hb Hs].
    cbn [app]. rewrite plain_step by exact Hb.
    rewrite IH; [reflexivity | assumption |].
    cbn [List.length] in Hfuel. lia.
Qed.

Lemma Unmarshal_string_literal (s : list byte) (v : string) :
  forallb json_string.plain s = true ->
  json_string.Unmarshal_string (json_string.literal s) v
  = (string_of_list_byte s, None).
Proof.
  intros Hs. unfold json_string.Unmarshal_string, json_string.literal.
  cbn [json_string.skipSpace json_string.isSpace json_string.code Byte.to_N
       N.eqb Pos.eqb orb].
  rewrite unquote_plain; [reflexivity | assumption |].
  rewrite length_app. cbn [List.length]. lia.
Qed.

(** A server that answers [200] with the literal of [s] makes a call with
    a string target return [s] and no error. *)
Lemma doRequest_string_literal (s : list byte) (method path before : string) :
  forallb json_string.plain s = true ->
  fst (doRequest httptest.NewRequestWithContext
         (httptest.client 200 (json_string.literal s)) tt
         method path (@None nilBody) (Some before) httptest.start)
  = (None, Some (string_of_list_byte s)).
Proof.
  intros Hs.
  rewrite (doRequest_sent httptest.NewRequestWithContext _ tt method path
             (@None nilBody) (Some before) httptest.start eq_refl).
  cbn -[json_string.literal json_string.Unmarshal_string].
  unfold json.Unmarshal, httptest.string_Unmarshaler.
  rewrite Unmarshal_string_literal by exact Hs. reflexivity.
Qed.

End Decoding.

(** * Further properties of the dispatcher *)

Section Outcomes.

Variable GoContext : Type.
Variable http_NewRequestWithContext :
  GoContext -> string -> string -> option (list byte) ->
  error + http.Request GoContext.

Context {B T : Type} {B_Marshaler : json.Marshaler B}
        {T_Unmarshaler : json.Unmarshaler T}.

Variable c : Client GoContext.
Variable ctx : GoContext.
Variables method path : string.
Variable body : option B.
Variable result : option T.
Variable w : World GoContext.

Lemma isFailure_false (status : Z) :
  isFailure status = false -> 200 <= status < 300.
Proof.
  unfold isFailure. intros H. apply orb_false_iff in H. destruct H as [Hlo Hhi].
  apply Z.ltb_ge in Hlo. rewrite Z.geb_leb in Hhi. apply Z.leb_gt in Hhi. lia.
Qed.

(** An error of [buildRequest] is made at one of the first two stages. *)
Lemma buildRequest_error_stage (err : error) :
  buildRequest http_NewRequestWithContext c ctx method path body = inl err ->
  exists inner : error,
    err = fmt.Errorf_w "failed to marshal request body: " inner
    \/ err = fmt.Errorf_w "failed to create request: " inner.
Proof.
  unfold buildRequest, marshalBody.
  destruct body as [b |].
  - destruct (json.Marshal b) as [e1 | jsonData].
    + intros [= <-]. exists e1. now left.
    + destruct (http_NewRequestWithContext _ _ _ _) as [e2 | req]; intros [= <-].
      exists e2. now right.
  - destruct (http_NewRequestWithContext _ _ _ _) as [e2 | req]; intros [= <-].
    exists e2. now right.
Qed.

(** When the transport fails, the call returns the error of the transport
    wrapped as [failed to perform request], which [errors.Unwrap] gives
    back; the result target is as before and the request was handed over
    once. *)
Theorem doRequest_transport_error (req : http.Request GoContext) (err : error) :
  buildRequest http_NewRequestWithContext c ctx method path body = inr req ->
  fst (exchange (httpClient c) w req) = inl err ->
  exists wrapped : error,
    doRequest http_NewRequestWithContext c ctx method path body result w
    = (Some wrapped, result, afterDo c w req)
    /\ errors.Unwrap wrapped = Some err
    /\ Error wrapped = "failed to perform request: " ++ Error err
    /\ (forall e : HTTPError, wrapped <> httpError e).
Proof.
  intros Hreq Herr.
  exists (fmt.Errorf_w "failed to perform request: " err).
  rewrite (doRequest_sent _ _ _ _ _ _ _ _ Hreq). cbn zeta. rewrite Herr.
  repeat split. intros e. discriminate.
Qed.

(** A call returns no error only after the transport has answered with a
    status in [200,300) and the body was read to its end. *)
Theorem doRequest_nil_only_after_2xx :
  fst (fst (doRequest http_NewRequestWithContext c ctx method path body result w))
    = None ->
  exists (req : http.Request GoContext) (status : Z) (respBody : list byte),
    buildRequest http_NewRequestWithContext c ctx method path body = inr req
    /\ answered c w req status respBody
    /\ 200 <= status < 300
    /\ snd (doRequest http_NewRequestWithContext c ctx method path body result w)
       = afterDo c w req.
Proof.
  destruct (buildRequest http_NewRequestWithContext c ctx method path body)
    as [err | req] eqn:Hreq.
  - rewrite (doRequest_not_sent _ _ _ _ _ _ _ _ Hreq). discriminate.
  - rewrite (doRequest_sent _ _ _ _ _ _ _ _ Hreq). cbn zeta.
    destruct (fst (exchange (httpClient c) w req)) as [err | resp] eqn:Hresp;
      [discriminate |].
    destruct (io.ReadAll (http.Body resp)) as [err | respBody] eqn:Hread;
      [discriminate |].
    destruct (isFailure (http.RespStatusCode resp)) eqn:Hstatus; [discriminate |].
    intros Hnil.
    exists req, (http.RespStatusCode resp), respBody.
    split; [reflexivity |].
    split; [exists resp; auto |].
    split; [now apply isFailure_false |].
    destruct result as [v |]; [| reflexivity].
    destruct (0 <? List.length respBody)%nat; [| reflexivity].
    destruct (json.Unmarshal respBody v) as [v' [err |]]; reflexivity.
Qed.

(** A call returns an [HTTPError] only for a response that the transport
    has delivered: its status is the [StatusCode], it lies outside
    [200,300), and its body is the [Message]. *)
Theorem doRequest_HTTPError_only_for_response (e : HTTPError) :
  fst (fst (doRequest http_NewRequestWithContext c ctx method path body result w))
    = Some (httpError e) ->
  exists (req : http.Request GoContext) (respBody : list byte),
    buildRequest http_NewRequestWithContext c ctx method path body = inr req
    /\ answered c w req (StatusCode e) respBody
    /\ (StatusCode e < 200 \/ 300 <= StatusCode e)
    /\ Message e = string_of_list_byte respBody
    /\ Timestamp e = snd (exchange (httpClient c) w req).
Proof.
  destruct (buildRequest http_NewRequestWithContext c ctx method path body)
    as [err | req] eqn:Hreq.
  - rewrite (doRequest_not_sent _ _ _ _ _ _ _ _ Hreq). cbn [fst]. intros He.
    destruct (buildRequest_error_not_httpError _ _ _ _ _ _ Hreq He).
  - rewrite (doRequest_sent _ _ _ _ _ _ _ _ Hreq). cbn zeta.
    destruct (fst (exchange (httpClient c) w req)) as [err | resp] eqn:Hresp;
      [discriminate |].
    destruct (io.ReadAll (http.Body resp)) as [err | respBody] eqn:Hread;
      [discriminate |].
    destruct (isFailure (http.RespStatusCode resp)) eqn:Hstatus.
    + cbn [fst]. intros [= <-]. cbn [StatusCode Message Timestamp].
      exists req, respBody.
      split; [reflexivity |].
      split; [exists resp; auto |].
      split; [now apply isFailure_spec |].
      split; reflexivity.
    + destruct result as [v |]; [| discriminate].
      destruct (0 <? List.length respBody)%nat; [| discriminate].
      destruct (json.Unmarshal respBody v) as [v' [err |]]; discriminate.
Qed.

(** Every error of a call is an [HTTPError] or an error of the library
    wrapped at one of the five stages: [errors.Unwrap] gives the error of
    the library back, the message is the name of the stage followed by the
    message of that error, and the result target is as before unless the
    stage is the decoding of the response. *)
Theorem doRequest_error_kinds (err : error) :
  fst (fst (doRequest http_NewRequestWithContext c ctx method path body result w))
    = Some err ->
  (exists e : HTTPError, err = httpError e)
  \/ exists (stage : string) (inner : error),
       In stage stages
       /\ err = fmt.Errorf_w stage inner
       /\ errors.Unwrap err = Some inner
       /\ Error err = stage ++ Error inner
       /\ (stage <> "failed to unmarshal response: " ->
           snd (fst (doRequest http_NewRequestWithContext
                       c ctx method path body result w))
           = result).
Proof.
  destruct (buildRequest http_NewRequestWithContext c ctx method path body)
    as [err0 | req] eqn:Hreq.
  - rewrite (doRequest_not_sent _ _ _ _ _ _ _ _ Hreq). cbn [fst snd].
    intros [= <-]. right.
    destruct (buildRequest_error_stage Hreq) as [inner [-> | ->]].
    + exists "failed to marshal request body: ", inner.
      repeat split. cbn. auto.
    + exists "failed to create request: ", inner.
      repeat split. cbn. auto.
  - rewrite (doRequest_sent _ _ _ _ _ _ _ _ Hreq). cbn zeta.
    destruct (fst (exchange (httpClient c) w req)) as [e1 | resp] eqn:Hresp.
    { cbn [fst snd]. intros [= <-]. right.
      exists "failed to perform request: ", e1. repeat split. cbn. auto. }
    destruct (io.ReadAll (http.Body resp)) as [e2 | respBody] eqn:Hread.
    { cbn [fst snd]. intros [= <-]. right.
      exists "failed to read response body: ", e2. repeat split. cbn. auto. }
    destruct (isFailure (http.RespStatusCode resp)) eqn:Hstatus.
    { cbn [fst snd]. intros [= <-]. left. eexists. reflexivity. }
    destruct result as [v |]; [| discriminate].
    destruct (0 <? List.length respBody)%nat; [| discriminate].
    destruct (json.Unmarshal respBody v) as [v' [e3 |]]; [| discriminate].
    cbn [fst snd]. intros [= <-]. right.
    exists "failed to unmarshal response: ", e3.
    repeat split; [cbn; auto 6 | congruence].
Qed.

(** Without result target a call does not look at the body: on a status
    in [200,300) it returns no error whatever the body holds. *)
Theorem doRequest_without_target
    (req : http.Request GoContext) (status : Z) (respBody : list byte) :
  result = None ->
  buildRequest http_NewRequestWithContext c ctx method path body = inr req ->
  answered c w req status respBody ->
  200 <= status < 300 ->
  doRequest http_NewRequestWithContext c ctx method path body result w
  = (None, None, afterDo c w req).
Proof.
  intros -> Hreq (resp & Hresp & Hstatus & Hread) Hok.
  rewrite (doRequest_sent _ _ _ _ _ _ _ _ Hreq). cbn zeta.
  rewrite Hresp, Hread, Hstatus, (isFailure_2xx Hok). reflexivity.
Qed.

End Outcomes.

Section Requests.

Variable GoContext : Type.
Variable http_NewRequestWithContext :
  GoContext -> string -> string -> option (list byte) ->
  error + http.Request GoContext.

Context {B T : Type} {B_Marshaler : json.Marshaler B}
        {T_Unmarshaler : json.Unmarshaler T} {T_Zero : Zero T}.

Lemma Header_Get_Set (key value : string) (h : http.Header) :
  Header_Get key (http.Header_Set key value h) = Some value.
Proof.
  unfold Header_Get, http.Header_Set. cbn [find fst].
  now rewrite String.eqb_refl.
Qed.

Lemma Header_Get_Set_other (key other value : string) (h : http.Header) :
  other <> key ->
  Header_Get other (http.Header_Set key value h) = Header_Get other h.
Proof.
  intros Hother. unfold Header_Get, http.Header_Set. cbn [find fst].
  assert (Hkey : (key =? other)%string = false)
    by (apply String.eqb_neq; congruence).
  rewrite Hkey. f_equal.
  induction h as [| [k v] h IH]; [reflexivity |].
  cbn [filter find fst].
  destruct (k =? key)%string eqn:Hk; cbn [negb].
  - apply String.eqb_eq in Hk. subst k. now rewrite Hkey.
  - cbn [find fst]. destruct (k =? other)%string; [reflexivity | exact IH].
Qed.

(** What [buildRequest] makes. *)
Lemma buildRequest_made
    (c : Client GoContext) (ctx : GoContext) (method path : string)
    (body : option B) (req : http.Request GoContext) :
  buildRequest http_NewRequestWithContext c ctx method path body = inr req ->
  match body with
  | Some b =>
      exists (jsonData : list byte) (made : http.Request GoContext),
        json.Marshal b = inr jsonData
        /\ http_NewRequestWithContext ctx method (baseURL c ++ path) (Some jsonData)
           = inr made
        /\ Header_Get "Content-Type" (http.ReqHeader req) = Some "application/json"
        /\ (forall key : string,
              key <> "Content-Type" ->
              Header_Get key (http.ReqHeader req)
              = Header_Get key (http.ReqHeader made))
        /\ http.Method req = http.Method made
        /\ http.URL req = http.URL made
        /\ http.ReqBody req = http.ReqBody made
        /\ http.Ctx req = http.Ctx made
  | None =>
      http_NewRequestWithContext ctx method (baseURL c ++ path) None = inr req
  end.
Proof.
  unfold buildRequest, marshalBody, requestURL.
  destruct body as [b |].
  - destruct (json.Marshal b) as [e1 | jsonData]; [discriminate |].
    destruct (http_NewRequestWithContext _ _ _ _) as [e2 | made] eqn:Hmade;
      [discriminate |].
    intros [= <-]. exists jsonData, made.
    split; [reflexivity |]. split; [exact Hmade |].
    cbn [setHeader http.ReqHeader http.Method http.URL http.ReqBody http.Ctx].
    split; [apply Header_Get_Set |].
    split; [intros key Hkey; now apply Header_Get_Set_other |].
    repeat split.
  - destruct (http_NewRequestWithContext _ _ _ _) as [e2 | made]; [discriminate |].
    intros [= <-]. reflexivity.
Qed.

Lemma doRequest_world
    (c : Client GoContext) (ctx : GoContext) (method path : string)
    (body : option B) (result : option T) (w : World GoContext)
    (req : http.Request GoContext) :
  buildRequest http_NewRequestWithContext c ctx method path body = inr req ->
  snd (doRequest http_NewRequestWithContext c ctx method path body result w)
  = afterDo c w req.
Proof.
  intros Hreq. rewrite (doRequest_sent _ _ _ _ _ _ _ _ Hreq). cbn zeta.
  destruct (fst (exchange (httpClient c) w req)) as [err | resp]; [reflexivity |].
  destruct (io.ReadAll _) as [err | respBody]; [reflexivity |].
  destruct (isFailure _); [reflexivity |].
  destruct result as [v |]; [| reflexivity].
  destruct (0 <? List.length respBody)%nat; [| reflexivity].
  destruct (json.Unmarshal respBody v) as [v' [err |]]; reflexivity.
Qed.

(** The request that a call hands to the transport is the one that
    [http.NewRequestWithContext] makes of the method, of the base address
    followed by the path, and of the marshalled body.  With a body its
    [Content-Type] is [application/json] and its other headers are as they
    were made; without body the request is handed over as it was made. *)
Theorem doRequest_request_as_sent
    (c : Client GoContext) (ctx : GoContext) (method path : string)
    (body : option B) (result : option T) (w : World GoContext)
    (req : http.Request GoContext) :
  calls (snd (doRequest http_NewRequestWithContext c ctx method path body result w))
    = req :: calls w ->
  match body with
  | Some b =>
      exists (jsonData : list byte) (made : http.Request GoContext),
        json.Marshal b = inr jsonData
        /\ http_NewRequestWithContext ctx method (baseURL c ++ path) (Some jsonData)
           = inr made
        /\ Header_Get "Content-Type" (http.ReqHeader req) = Some "application/json"
        /\ (forall key : string,
              key <> "Content-Type" ->
              Header_Get key (http.ReqHeader req)
              = Header_Get key (http.ReqHeader made))
        /\ http.Method req = http.Method made
        /\ http.URL req = http.URL made
        /\ http.ReqBody req = http.ReqBody made
        /\ http.Ctx req = http.Ctx made
  | None =>
      http_NewRequestWithContext ctx method (baseURL c ++ path) None = inr req
  end.
Proof.
  destruct (buildRequest http_NewRequestWithContext c ctx method path body)
    as [err | sent] eqn:Hreq.
  - rewrite (doRequest_not_sent _ _ _ _ _ _ _ _ Hreq). cbn [snd]. intros H.
    apply (f_equal (@List.length _)) in H. cbn [List.length] in H. lia.
  - rewrite (doRequest_world _ _ _ _ _ _ _ Hreq). cbn [afterDo calls].
    intros [= <-]. now apply buildRequest_made.
Qed.

(** The operations that declare [var result T] and hand over [&result]
    return the zero value of [T], unless the transport has answered with a
    status in [200,300) and a body that is not empty. *)
Theorem call_value_from_2xx_body
    (c : Client GoContext) (ctx : GoContext) (method path : string)
    (body : option B) (w : World GoContext) :
  fst (fst (call (T := T) http_NewRequestWithContext c ctx method path body w))
    = zero
  \/ exists (req : http.Request GoContext) (status : Z) (respBody : list byte),
       buildRequest http_NewRequestWithContext c ctx method path body = inr req
       /\ answered c w req status respBody
       /\ 200 <= status < 300
       /\ respBody <> [].
Proof.
  unfold call, bind, ret.
  destruct (buildRequest http_NewRequestWithContext c ctx method path body)
    as [err | req] eqn:Hreq.
  - rewrite (doRequest_not_sent _ _ _ _ _ _ (Some zero) _ Hreq). now left.
  - rewrite (doRequest_sent _ _ _ _ _ _ (Some zero) _ Hreq). cbn zeta.
    destruct (fst (exchange (httpClient c) w req)) as [err | resp] eqn:Hresp;
      [now left |].
    destruct (io.ReadAll (http.Body resp)) as [err | respBody] eqn:Hread;
      [now left |].
    destruct (isFailure (http.RespStatusCode resp)) eqn:Hstatus; [now left |].
    destruct respBody as [| b0 bs]; [now left |].
    right. exists req, (http.RespStatusCode resp), (b0 :: bs).
    split; [reflexivity |].
    split; [exists resp; auto |].
    split; [now apply isFailure_false | discriminate].
Qed.

End Requests.

(** ** The further properties against a test server *)

Lemma doRequest_transport_error_witness :
  exists wrapped : error,
    doRequest httptest.NewRequestWithContext offline_client tt
      "GET" "/api/v2/version" (@None nilBody) (Some "before") httptest.start
    = (Some wrapped, Some "before",
       {| calls := [{| http.Ctx := tt;
                       http.Method := "GET";
                       http.URL := "http://localhost:8000/api/v2/version";
                       http.ReqHeader := [];
                       http.ReqBody := None |}];
          clock := 1 |})
    /\ errors.Unwrap wrapped
       = Some (errorString "dial tcp: connect: connection refused")
    /\ Error wrapped
       = "failed to perform request: dial tcp: connect: connection refused"
    /\ (forall e : HTTPError, wrapped <> httpError e).
Proof.
  apply (@doRequest_transport_error unit httptest.NewRequestWithContext
           nilBody string _ _ offline_client tt
           "GET" "/api/v2/version" None (Some "before") httptest.start
           {| http.Ctx := tt;
              http.Method := "GET";
              http.URL := "http://localhost:8000/api/v2/version";
              http.ReqHeader := [];
              http.ReqBody := None |}
           (errorString "dial tcp: connect: connection refused")).
  - reflexivity.
  - reflexivity.
Defined.

Lemma doRequest_nil_only_after_2xx_witness :
  exists (req : http.Request unit) (status : Z) (respBody : list byte),
    buildRequest httptest.NewRequestWithContext
      (httptest.client 200 httptest.version_body) tt
      "GET" "/api/v2/version" (@None nilBody)
    = inr req
    /\ answered (httptest.client 200 httptest.version_body) httptest.start
         req status respBody
    /\ 200 <= status < 300
    /\ snd (httptest.get 200 httptest.version_body "/api/v2/version" "")
       = afterDo (httptest.client 200 httptest.version_body) httptest.start req.
Proof.
  apply (@doRequest_nil_only_after_2xx unit httptest.NewRequestWithContext
           nilBody string _ _ (httptest.client 200 httptest.version_body) tt
           "GET" "/api/v2/version" None (Some "") httptest.start).
  reflexivity.
Defined.

Lemma doRequest_HTTPError_only_for_response_witness :
  exists (req : http.Request unit) (respBody : list byte),
    buildRequest httptest.NewRequestWithContext
      (httptest.client 404 httptest.not_found_body) tt
      "GET" "/api/v2/collections/missing" (@None nilBody)
    = inr req
    /\ answered (httptest.client 404 httptest.not_found_body) httptest.start
         req 404 respBody
    /\ (404 < 200 \/ 300 <= 404)
    /\ "Collection not found" = string_of_list_byte respBody
    /\ 1 = snd (exchange (httpClient (httptest.client 404 httptest.not_found_body))
                  httptest.start req).
Proof.
  apply (@doRequest_HTTPError_only_for_response unit httptest.NewRequestWithContext
           nilBody string _ _ (httptest.client 404 httptest.not_found_body) tt
           "GET" "/api/v2/collections/missing" None (Some "before") httptest.start
           {| StatusCode := 404;
              Message := "Collection not found";
              Timestamp := 1 |}).
  reflexivity.
Defined.

Lemma doRequest_error_kinds_witness :
  (exists e : HTTPError,
     fmt.Errorf_w "failed to unmarshal response: " json_string.rejected = httpError e)
  \/ exists (stage : string) (inner : error),
       In stage stages
       /\ fmt.Errorf_w "failed to unmarshal response: " json_string.rejected
          = fmt.Errorf_w stage inner
       /\ errors.Unwrap
            (fmt.Errorf_w "failed to unmarshal response: " json_string.rejected)
          = Some inner
       /\ Error (fmt.Errorf_w "failed to unmarshal response: " json_string.rejected)
          = stage ++ Error inner
       /\ (stage <> "failed to unmarshal response: " ->
           snd (fst (httptest.get 200 [x31] "/api/v2/version" "")) = Some "").
Proof.
  apply (@doRequest_error_kinds unit httptest.NewRequestWithContext
           nilBody string _ _ (httptest.client 200 [x31]) tt
           "GET" "/api/v2/version" None (Some "") httptest.start
           (fmt.Errorf_w "failed to unmarshal response: " json_string.rejected)).
  reflexivity.
Defined.

(** [DeleteCollection] against a server that answers 200 with a body that
    is no JSON. *)
Lemma doRequest_without_target_witness :
  DeleteCollection httptest.NewRequestWithContext
    (httptest.client 200 httptest.not_found_body) tt "docs" "" "" httptest.start
  = (None,
     {| calls :=
          [{| http.Ctx := tt;
              http.Method := "DELETE";
              http.URL :=
                "http://127.0.0.1:8000/api/v2/tenants/default_tenant/databases/default_database/collections/docs";
              http.ReqHeader := [];
              http.ReqBody := None |}];
        clock := 1 |}).
Proof.
  unfold DeleteCollection, bind.
  rewrite (@doRequest_without_target unit httptest.NewRequestWithContext
             nilBody string _ _ (httptest.client 200 httptest.not_found_body) tt
             "DELETE"
             (DeleteCollection_path (httptest.client 200 httptest.not_found_body)
                "docs" "" "")
             None None httptest.start
             {| http.Ctx := tt;
                http.Method := "DELETE";
                http.URL :=
                  "http://127.0.0.1:8000/api/v2/tenants/default_tenant/databases/default_database/collections/docs";
                http.ReqHeader := [];
                http.ReqBody := None |}
             200 httptest.not_found_body).
  - reflexivity.
  - reflexivity.
  - reflexivity.
  - apply httptest_answered.
  - lia.
Defined.

(** A [POST] with the body [true]. *)
Lemma doRequest_request_as_sent_witness :
  exists (jsonData : list byte) (made : http.Request unit),
    json.Marshal true = inr jsonData
    /\ httptest.NewRequestWithContext tt "POST"
         ("http://127.0.0.1:8000" ++ "/api/v2/reset") (Some jsonData)
       = inr made
    /\ Header_Get "Content-Type"
         [("Content-Type", "application/json")] = Some "application/json"
    /\ (forall key : string,
          key <> "Content-Type" ->
          Header_Get key [("Content-Type", "application/json")]
          = Header_Get key (http.ReqHeader made))
    /\ "POST" = http.Method made
    /\ "http://127.0.0.1:8000/api/v2/reset" = http.URL made
    /\ Some (list_byte_of_string "true") = http.ReqBody made
    /\ tt = http.Ctx made.
Proof.
  apply (@doRequest_request_as_sent unit httptest.NewRequestWithContext
           bool string _ _ (httptest.client 200 []) tt "POST" "/api/v2/reset"
           (Some true) (Some "") httptest.start
           {| http.Ctx := tt;
              http.Method := "POST";
              http.URL := "http://127.0.0.1:8000/api/v2/reset";
              http.ReqHeader := [("Content-Type", "application/json")];
              http.ReqBody := Some (list_byte_of_string "true") |}).
  reflexivity.
Defined.

(** * Further properties of the construction *)

Section Options.

Variable GoContext : Type.
Variable DefaultTransport :
  World GoContext -> http.Request GoContext -> (error + http.Response) * time.Time.

Implicit Types (c : Client GoContext) (a b : Setting GoContext).
Implicit Types (settings pre post : list (Setting GoContext)).

(** The fields of a client after a list of provided options. *)
Lemma options_fields settings c :
  let c' := fold_left (fun c opt => opt c) (map option_of settings) c in
  baseURL c' = match lastOf givenBaseURL settings with
               | Some u => strings.TrimSuffix u "/"
               | None => baseURL c
               end
  /\ httpClient c' = match lastOf givenHTTPClient settings with
                     | Some h => h
                     | None => httpClient c
                     end
  /\ tenant c' = match lastOf givenTenant settings with
                 | Some t => t
                 | None => tenant c
                 end
  /\ database c' = match lastOf givenDatabase settings with
                   | Some d => d
                   | None => database c
                   end.
Proof.
  revert c. induction settings as [| s rest IH]; intros c; cbn zeta.
  - repeat split.
  - cbn [map fold_left lastOf].
    destruct (IH (option_of s c)) as (Hb & Hh & Ht & Hd).
    cbn zeta in Hb, Hh, Ht, Hd. rewrite Hb, Hh, Ht, Hd.
    destruct (lastOf givenBaseURL rest), (lastOf givenHTTPClient rest),
      (lastOf givenTenant rest), (lastOf givenDatabase rest);
      destruct s; repeat split.
Qed.

(** Each field of the client that [NewClient] makes of provided options is
    what the last option for the field says, and the default when no option
    is for the field; of a base address one trailing slash is removed. *)
Theorem NewClient_fields_from_last_option settings :
  baseURL (NewClient DefaultTransport (map option_of settings))
  = match lastOf givenBaseURL settings with
    | Some u => strings.TrimSuffix u "/"
    | None => "http://localhost:8000"
    end
  /\ httpClient (NewClient DefaultTransport (map option_of settings))
     = match lastOf givenHTTPClient settings with
       | Some h => h
       | None => {| Timeout := 30 * time.Second; exchange := DefaultTransport |}
       end
  /\ tenant (NewClient DefaultTransport (map option_of settings))
     = match lastOf givenTenant settings with
       | Some t => t
       | None => DefaultTenant
       end
  /\ database (NewClient DefaultTransport (map option_of settings))
     = match lastOf givenDatabase settings with
       | Some d => d
       | None => DefaultDatabase
       end.
Proof. unfold NewClient. apply options_fields. Qed.

(** Two neighbouring options for different fields can change places. *)
Theorem NewClient_options_swap pre post a b :
  sameField a b = false ->
  NewClient DefaultTransport (map option_of (pre ++ a :: b :: post))
  = NewClient DefaultTransport (map option_of (pre ++ b :: a :: post)).
Proof.
  intros Hab. unfold NewClient.
  rewrite !map_app, !fold_left_app. cbn [map fold_left].
  now rewrite option_commutes.
Qed.

(** [WithBaseURL] stores the address it is given, without its last byte
    when that is a slash; it changes no other field. *)
Theorem WithBaseURL_stored c (given : string) :
  (given = baseURL (WithBaseURL given c) ++ "/"
   \/ given = baseURL (WithBaseURL given c) /\ strings.HasSuffix given "/" = false)
  /\ httpClient (WithBaseURL given c) = httpClient c
  /\ tenant (WithBaseURL given c) = tenant c
  /\ database (WithBaseURL given c) = database c.
Proof.
  split; [| repeat split].
  cbn [WithBaseURL baseURL].
  destruct (strings.HasSuffix given "/") eqn:Hslash.
  - left. apply HasSuffix_inv in Hslash.
    rewrite Hslash at 2. rewrite TrimSuffix_app. exact Hslash.
  - right. split; [| reflexivity]. now rewrite TrimSuffix_without.
Qed.

End Options.

Lemma NewClient_options_swap_witness :
  NewClient httptest.Offline
    (map option_of [SetTenant "acme"; SetBaseURL "http://example.com/"])
  = NewClient httptest.Offline
      (map option_of [SetBaseURL "http://example.com/"; SetTenant "acme"]).
Proof.
  apply (@NewClient_options_swap unit httptest.Offline [] []
           (SetTenant "acme") (SetBaseURL "http://example.com/")).
  reflexivity.
Defined.

(** * Further properties of the resource paths *)

Section Scopes.

Variable GoContext : Type.

Implicit Types (c : Client GoContext).

Lemma contains_app (x : ascii) (a b : string) :
  url.contains x (a ++ b) = url.contains x a || url.contains x b.
Proof.
  induction a as [| y a IH]; cbn [append url.contains]; [reflexivity |].
  now rewrite IH, orb_assoc.
Qed.

Lemma QueryEscape_no_question (s : string) :
  url.contains "?" (url.QueryEscape s) = false.
Proof.
  unfold url.QueryEscape.
  induction s as [| x s IH]; [reflexivity |].
  destruct x as [[] [] [] [] [] [] [] []]; exact IH.
Qed.

Lemma QueryEscape_no_hash (s : string) :
  url.contains "#" (url.QueryEscape s) = false.
Proof.
  unfold url.QueryEscape.
  induction s as [| x s IH]; [reflexivity |].
  destruct x as [[] [] [] [] [] [] [] []]; exact IH.
Qed.

Lemma QueryEscape_injective (s s' : string) :
  url.QueryEscape s = url.QueryEscape s' -> s = s'.
Proof.
  intros H. apply (f_equal url.QueryUnescape) in H.
  rewrite !QueryUnescape_QueryEscape in H. congruence.
Qed.

(** The pieces of a path that is scoped by a tenant and a database. *)
Lemma split_scoped (scopeTenant scopeDatabase last : string) :
  url.contains "/" last = false ->
  url.split_slash ("/api/v2/tenants/" ++ url.QueryEscape scopeTenant
                     ++ "/databases/" ++ url.QueryEscape scopeDatabase
                     ++ String "/" last)
  = [""; "api"; "v2"; "tenants"; url.QueryEscape scopeTenant;
     "databases"; url.QueryEscape scopeDatabase; last].
Proof.
  intros Hlast.
  change ("/api/v2/tenants/" ++ url.QueryEscape scopeTenant ++ "/databases/"
            ++ url.QueryEscape scopeDatabase ++ String "/" last)
    with ("" ++ String "/" ("api" ++ String "/" ("v2" ++ String "/"
            ("tenants" ++ String "/" (url.QueryEscape scopeTenant ++ String "/"
               ("databases" ++ String "/" (url.QueryEscape scopeDatabase
                  ++ String "/" last))))))).
  rewrite !split_slash_segment by (reflexivity || apply QueryEscape_no_slash).
  now rewrite split_slash_last.
Qed.

Lemma split_scoped_name (scopeTenant scopeDatabase name : string) :
  url.split_slash ("/api/v2/tenants/" ++ url.QueryEscape scopeTenant
                     ++ "/databases/" ++ url.QueryEscape scopeDatabase
                     ++ "/collections/" ++ name)
  = ([""; "api"; "v2"; "tenants"; url.QueryEscape scopeTenant;
      "databases"; url.QueryEscape scopeDatabase; "collections"]
     ++ url.split_slash name)%list.
Proof.
  change ("/api/v2/tenants/" ++ url.QueryEscape scopeTenant ++ "/databases/"
            ++ url.QueryEscape scopeDatabase ++ "/collections/" ++ name)
    with ("" ++ String "/" ("api" ++ String "/" ("v2" ++ String "/"
            ("tenants" ++ String "/" (url.QueryEscape scopeTenant ++ String "/"
               ("databases" ++ String "/" (url.QueryEscape scopeDatabase
                  ++ String "/" ("collections" ++ String "/" name)))))))).
  rewrite !split_slash_segment by (reflexivity || apply QueryEscape_no_slash).
  reflexivity.
Qed.

Lemma scoped_no (x : ascii) (scopeTenant scopeDatabase last : string) :
  url.contains x "/api/v2/tenants/" = false ->
  url.contains x "/databases/" = false ->
  url.contains x last = false ->
  (forall s : string, url.contains x (url.QueryEscape s) = false) ->
  url.contains x ("/api/v2/tenants/" ++ url.QueryEscape scopeTenant
                    ++ "/databases/" ++ url.QueryEscape scopeDatabase ++ last)
  = false.
Proof.
  intros H1 H2 H3 Hq. now rewrite !contains_app, H1, H2, H3, !Hq.
Qed.

(** Whatever bytes the tenant and the database hold, each fills one piece
    of the path of [ListCollections], [CountCollections] and
    [CreateCollection]: cut at its slashes the path has the same eight
    pieces, the two names escaped, and it holds no [?] and no [#]. *)
Theorem scoped_paths_have_fixed_shape c (tenant' database' : string) :
  url.split_slash (ListCollections_path c tenant' database')
  = [""; "api"; "v2"; "tenants"; url.QueryEscape (orDefault tenant' (tenant c));
     "databases"; url.QueryEscape (orDefault database' (database c));
     "collections"]
  /\ url.split_slash (CountCollections_path c tenant' database')
     = [""; "api"; "v2"; "tenants"; url.QueryEscape (orDefault tenant' (tenant c));
        "databases"; url.QueryEscape (orDefault database' (database c));
        "collections_count"]
  /\ url.split_slash (CreateCollection_path c tenant' database')
     = [""; "api"; "v2"; "tenants"; url.QueryEscape (orDefault tenant' (tenant c));
        "databases"; url.QueryEscape (orDefault database' (database c));
        "collections"]
  /\ url.contains "?" (ListCollections_path c tenant' database') = false
  /\ url.contains "#" (ListCollections_path c tenant' database') = false
  /\ url.contains "?" (CountCollections_path c tenant' database') = false
  /\ url.contains "#" (CountCollections_path c tenant' database') = false
  /\ url.contains "?" (CreateCollection_path c tenant' database') = false
  /\ url.contains "#" (CreateCollection_path c tenant' database') = false.
Proof.
  unfold ListCollections_path, CountCollections_path, CreateCollection_path.
  fold (orDefault tenant' (tenant c)). fold (orDefault database' (database c)).
  repeat split;
    first [ apply split_scoped; reflexivity
          | apply scoped_no;
            first [ reflexivity | apply QueryEscape_no_question
                  | apply QueryEscape_no_hash ] ].
Qed.

(** Two calls of [ListCollections] that resolve to the same path use the
    same tenant and the same database. *)
Theorem ListCollections_path_injective
    c c' (tenant1 database1 tenant2 database2 : string) :
  ListCollections_path c tenant1 database1 = ListCollections_path c' tenant2 database2 ->
  orDefault tenant1 (tenant c) = orDefault tenant2 (tenant c')
  /\ orDefault database1 (database c) = orDefault database2 (database c').
Proof.
  unfold ListCollections_path.
  fold (orDefault tenant1 (tenant c)). fold (orDefault database1 (database c)).
  fold (orDefault tenant2 (tenant c')). fold (orDefault database2 (database c')).
  intros H. apply (f_equal url.split_slash) in H.
  rewrite !split_scoped in H by reflexivity.
  injection H as Ht Hd.
  split; now apply QueryEscape_injective.
Qed.

Lemma cutAt_without (sep : ascii) (s : string) :
  url.contains sep s = false -> cutAt sep s = s.
Proof.
  induction s as [| x s IH]; cbn [url.contains cutAt]; [reflexivity |].
  intros H. apply orb_false_iff in H. destruct H as [Hx Hs].
  now rewrite Hx, (IH Hs).
Qed.

Lemma cutAfter_without (sep : ascii) (s : string) :
  url.contains sep s = false -> cutAfter sep s = "".
Proof.
  induction s as [| x s IH]; cbn [url.contains cutAfter]; [reflexivity |].
  intros H. apply orb_false_iff in H. destruct H as [Hx Hs].
  now rewrite Hx, (IH Hs).
Qed.

Lemma append_empty (s : string) : s ++ "" = s.
Proof. induction s as [| x s IH]; cbn [append]; [reflexivity | now rewrite IH]. Qed.

Lemma cutAt_app (sep : ascii) (a b : string) :
  url.contains sep a = false -> cutAt sep (a ++ b) = a ++ cutAt sep b.
Proof.
  induction a as [| x a IH]; cbn [url.contains cutAt append]; [reflexivity |].
  intros H. apply orb_false_iff in H. destruct H as [Hx Ha].
  now rewrite Hx, (IH Ha).
Qed.

(** ** What [url.Parse] makes of a path *)

Lemma CTL_app (a b : string) :
  urlpkg.stringContainsCTLByte (a ++ b)
  = urlpkg.stringContainsCTLByte a || urlpkg.stringContainsCTLByte b.
Proof.
  induction a as [| x a IH]; cbn [append urlpkg.stringContainsCTLByte];
    [reflexivity |].
  now rewrite IH, orb_assoc.
Qed.

Lemma validEncoded_app (a b : string) :
  urlpkg.validEncoded (a ++ b) = urlpkg.validEncoded a && urlpkg.validEncoded b.
Proof.
  induction a as [| x a IH]; cbn [append urlpkg.validEncoded]; [reflexivity |].
  destruct (url.contains x _); [exact IH |].
  destruct (urlpkg.shouldEscapePath x); [reflexivity | exact IH].
Qed.

(** A valid encoding holds no control byte, no [?] and no [#]. *)
Lemma validEncoded_byte (x : ascii) (s : string) :
  urlpkg.validEncoded (String x s) = true ->
  ((N_of_ascii x <? 32)%N || (N_of_ascii x =? 127)%N = false
   /\ Ascii.eqb x "?" = false /\ Ascii.eqb x "#" = false)
  /\ urlpkg.validEncoded s = true.
Proof.
  destruct x as [[] [] [] [] [] [] [] []];
    first [ discriminate | intros H; split; [repeat split | exact H] ].
Qed.

Lemma validEncoded_no_CTL (s : string) :
  urlpkg.validEncoded s = true -> urlpkg.stringContainsCTLByte s = false.
Proof.
  induction s as [| x s IH]; [reflexivity |].
  intros H. apply validEncoded_byte in H. destruct H as ((Hctl & _ & _) & Hs).
  cbn [urlpkg.stringContainsCTLByte]. now rewrite Hctl, (IH Hs).
Qed.

Lemma validEncoded_no_question (s : string) :
  urlpkg.validEncoded s = true -> url.contains "?" s = false.
Proof.
  induction s as [| x s IH]; [reflexivity |].
  intros H. apply validEncoded_byte in H. destruct H as ((_ & Hq & _) & Hs).
  cbn [url.contains]. now rewrite Hq, (IH Hs).
Qed.

Lemma validEncoded_no_hash (s : string) :
  urlpkg.validEncoded s = true -> url.contains "#" s = false.
Proof.
  induction s as [| x s IH]; [reflexivity |].
  intros H. apply validEncoded_byte in H. destruct H as ((_ & _ & Hh) & Hs).
  cbn [url.contains]. now rewrite Hh, (IH Hs).
Qed.

(** What [url.QueryEscape] writes is a valid encoding in a path. *)
Lemma validEncoded_QueryEscape (s : string) :
  urlpkg.validEncoded (url.QueryEscape s) = true.
Proof.
  unfold url.QueryEscape.
  induction s as [| x s IH]; [reflexivity |].
  destruct x as [[] [] [] [] [] [] [] []]; exact IH.
Qed.

(** Unescaping goes through a text piece by piece. *)
Lemma unescape_app_bounded (mode : url.encoding) (n : nat) :
  forall a a' b : string,
    (String.length a <= n)%nat ->
    url.unescape a mode = Some a' ->
    url.unescape (a ++ b) mode = option_map (append a') (url.unescape b mode).
Proof.
  induction n as [| n IH]; intros a a' b Hlen Ha.
  - destruct a as [| x a]; [| cbn in Hlen; lia].
    injection Ha as <-. cbn [append]. now destruct (url.unescape b mode).
  - destruct a as [| x a].
    + injection Ha as <-. cbn [append]. now destruct (url.unescape b mode).
    + cbn [String.length] in Hlen.
      cbn [append]. cbn [url.unescape] in Ha |- *.
      destruct (Ascii.eqb x "%").
      * destruct a as [| h [| l a]]; try discriminate Ha.
        cbn [append]. cbn [String.length] in Hlen.
        destruct (url.ishex h && url.ishex l); [| discriminate Ha].
        destruct (url.unescape a mode) as [a1 |] eqn:Ha1; [| discriminate Ha].
        injection Ha as <-.
        rewrite (IH a a1 b) by (lia || assumption).
        now destruct (url.unescape b mode).
      * destruct (Ascii.eqb x "+").
        -- destruct (url.unescape a mode) as [a1 |] eqn:Ha1; [| discriminate Ha].
           injection Ha as <-.
           rewrite (IH a a1 b) by (lia || assumption).
           now destruct (url.unescape b mode).
        -- destruct (url.unescape a mode) as [a1 |] eqn:Ha1; [| discriminate Ha].
           injection Ha as <-.
           rewrite (IH a a1 b) by (lia || assumption).
           now destruct (url.unescape b mode).
Qed.

Lemma unescapePath_app (a a' b : string) :
  urlpkg.unescapePath a = Some a' ->
  urlpkg.unescapePath (a ++ b) = option_map (append a') (urlpkg.unescapePath b).
Proof.
  unfold urlpkg.unescapePath. intros Ha.
  now apply (@unescape_app_bounded url.encodePathSegment (String.length a)).
Qed.

(** The path of a valid encoding that begins with a slash is sent as it
    is. *)
Lemma RequestURI_path_valid (p path : string) :
  urlpkg.validEncoded (String "/" p) = true ->
  urlpkg.unescapePath (String "/" p) = Some path ->
  urlpkg.RequestURI_path
    {| urlpkg.Path := path;
       urlpkg.RawPath := if (urlpkg.escapePath path =? String "/" p)%string
                         then "" else String "/" p |}
  = String "/" p.
Proof.
  intros Hvalid Hpath.
  assert (Hescaped :
    urlpkg.EscapedPath
      {| urlpkg.Path := path;
         urlpkg.RawPath := if (urlpkg.escapePath path =? String "/" p)%string
                           then "" else String "/" p |}
    = String "/" p).
  { unfold urlpkg.EscapedPath. cbn [urlpkg.Path urlpkg.RawPath].
    destruct (urlpkg.escapePath path =? String "/" p)%string eqn:Hdefault.
    - cbn [String.eqb negb andb].
      unfold urlpkg.unescapePath in Hpath. cbn in Hpath.
      destruct (url.unescape p url.encodePathSegment) as [p' |];
        [| discriminate Hpath].
      injection Hpath as <-. cbn [String.eqb Ascii.eqb Bool.eqb].
      now apply String.eqb_eq in Hdefault.
    - rewrite Hvalid, Hpath, String.eqb_refl. reflexivity. }
  unfold urlpkg.RequestURI_path. now rewrite Hescaped.
Qed.

(** A resource path that is a valid encoding, alone or followed by a
    query without control byte and [#]: the request is made exactly when
    the path can be unescaped, and a server reads the segments of the path
    as it is written. *)
Lemma readSegments_valid (p query : string) :
  urlpkg.validEncoded (String "/" p) = true ->
  urlpkg.stringContainsCTLByte query = false ->
  url.contains "#" query = false ->
  query = "" \/ (exists params : string, query = String "?" params) ->
  readSegments (String "/" p ++ query)
  = match urlpkg.unescapePath (String "/" p) with
    | None => None
    | Some _ => url.segments (String "/" p)
    end.
Proof.
  intros Hvalid Hctl Hhash Hquery.
  assert (Hcut : cutAt "?" (String "/" p ++ query) = String "/" p).
  { rewrite cutAt_app by now apply validEncoded_no_question.
    destruct Hquery as [-> | [params ->]]; cbn [cutAt Ascii.eqb Bool.eqb];
      apply append_empty. }
  assert (Hnohash : url.contains "#" (String "/" p ++ query) = false).
  { now rewrite contains_app, (@validEncoded_no_hash _ Hvalid), Hhash. }
  unfold readSegments. cbn [append Ascii.eqb Bool.eqb].
  change (String "/" (p ++ query)) with (String "/" p ++ query).
  unfold urlpkg.Parse.
  rewrite (@cutAt_without _ _ Hnohash), (@cutAfter_without _ _ Hnohash), Hcut.
  rewrite CTL_app, (@validEncoded_no_CTL _ Hvalid), Hctl.
  cbn [orb String.eqb]. unfold urlpkg.setPath.
  destruct (urlpkg.unescapePath (String "/" p)) as [path |] eqn:Hpath;
    [| reflexivity].
  now rewrite (@RequestURI_path_valid p path Hvalid Hpath).
Qed.

(** The paths that are scoped by a tenant and a database. *)
Lemma validEncoded_scoped (scopeTenant scopeDatabase last : string) :
  urlpkg.validEncoded last = true ->
  urlpkg.validEncoded ("/api/v2/tenants/" ++ url.QueryEscape scopeTenant
                         ++ "/databases/" ++ url.QueryEscape scopeDatabase ++ last)
  = true.
Proof.
  intros Hlast.
  now rewrite !validEncoded_app, !validEncoded_QueryEscape, Hlast.
Qed.

Lemma unescapePath_scoped (scopeTenant scopeDatabase last : string) :
  url.contains " " scopeTenant = false ->
  url.contains " " scopeDatabase = false ->
  urlpkg.unescapePath ("/api/v2/tenants/" ++ url.QueryEscape scopeTenant
                         ++ "/databases/" ++ url.QueryEscape scopeDatabase ++ last)
  = option_map (append ("/api/v2/tenants/" ++ scopeTenant ++ "/databases/"
                          ++ scopeDatabase))
      (urlpkg.unescapePath last).
Proof.
  intros Ht Hd.
  rewrite (@unescapePath_app "/api/v2/tenants/" "/api/v2/tenants/") by reflexivity.
  rewrite (@unescapePath_app (url.QueryEscape scopeTenant) scopeTenant)
    by now apply PathUnescape_QueryEscape.
  rewrite (@unescapePath_app "/databases/" "/databases/") by reflexivity.
  rewrite (@unescapePath_app (url.QueryEscape scopeDatabase) scopeDatabase)
    by now apply PathUnescape_QueryEscape.
  destruct (urlpkg.unescapePath last) as [last' |]; cbn [option_map];
    [| reflexivity].
  now rewrite !append_assoc.
Qed.

(** From a scoped path that is a valid encoding a server reads the
    segments as they are written, when the last part can be unescaped. *)
Lemma readSegments_scoped (scopeTenant scopeDatabase last query : string) :
  url.contains " " scopeTenant = false ->
  url.contains " " scopeDatabase = false ->
  urlpkg.validEncoded last = true ->
  urlpkg.stringContainsCTLByte query = false ->
  url.contains "#" query = false ->
  query = "" \/ (exists params : string, query = String "?" params) ->
  readSegments ("/api/v2/tenants/" ++ url.QueryEscape scopeTenant
                  ++ "/databases/" ++ url.QueryEscape scopeDatabase
                  ++ last ++ query)
  = match urlpkg.unescapePath last with
    | None => None
    | Some _ =>
        url.segments ("/api/v2/tenants/" ++ url.QueryEscape scopeTenant
                        ++ "/databases/" ++ url.QueryEscape scopeDatabase ++ last)
    end.
Proof.
  intros Ht Hd Hlast Hctl Hhash Hquery.
  pose proof (@validEncoded_scoped scopeTenant scopeDatabase last Hlast) as Hvalid.
  pose proof (@unescapePath_scoped scopeTenant scopeDatabase last Ht Hd) as Hpath.
  replace ("/api/v2/tenants/" ++ url.QueryEscape scopeTenant
             ++ "/databases/" ++ url.QueryEscape scopeDatabase ++ last ++ query)
    with (("/api/v2/tenants/" ++ url.QueryEscape scopeTenant
             ++ "/databases/" ++ url.QueryEscape scopeDatabase ++ last) ++ query)
    by now rewrite !append_assoc.
  change ("/api/v2/tenants/" ++ url.QueryEscape scopeTenant
            ++ "/databases/" ++ url.QueryEscape scopeDatabase ++ last)
    with (String "/" ("api/v2/tenants/" ++ url.QueryEscape scopeTenant
            ++ "/databases/" ++ url.QueryEscape scopeDatabase ++ last)) in *.
  rewrite (@readSegments_valid _ query Hvalid Hctl Hhash Hquery), Hpath.
  now destruct (urlpkg.unescapePath last).
Qed.

(** A tenant and a database that are not empty and hold no space are read
    back by a server from the paths of [ListCollections],
    [CountCollections] and [CreateCollection], whatever other bytes they
    hold. *)
Theorem scoped_paths_round_trip c (tenant' database' : string) :
  tenant' <> "" -> database' <> "" ->
  url.contains " " tenant' = false ->
  url.contains " " database' = false ->
  readSegments (ListCollections_path c tenant' database')
  = Some [""; "api"; "v2"; "tenants"; tenant'; "databases"; database'; "collections"]
  /\ readSegments (CountCollections_path c tenant' database')
     = Some [""; "api"; "v2"; "tenants"; tenant'; "databases"; database';
             "collections_count"]
  /\ readSegments (CreateCollection_path c tenant' database')
     = Some [""; "api"; "v2"; "tenants"; tenant'; "databases"; database';
             "collections"].
Proof.
  intros Ht Hd Hts Hds.
  assert (Hread : forall last : string,
    url.contains "/" last = false ->
    urlpkg.validEncoded (String "/" last) = true ->
    urlpkg.unescapePath (String "/" last) = Some (String "/" last) ->
    url.PathUnescape last = Some last ->
    readSegments ("/api/v2/tenants/" ++ url.QueryEscape tenant'
                    ++ "/databases/" ++ url.QueryEscape database'
                    ++ String "/" last)
    = Some [""; "api"; "v2"; "tenants"; tenant'; "databases"; database'; last]).
  { intros last Hslash Hvalid Hpath Hlast.
    rewrite <- (append_empty (String "/" last)) at 1.
    rewrite (@readSegments_scoped tenant' database' (String "/" last) ""
               Hts Hds Hvalid eq_refl eq_refl (or_introl eq_refl)).
    rewrite Hpath. unfold url.segments.
    rewrite (@split_scoped tenant' database' last Hslash).
    cbn [map]. rewrite !PathUnescape_QueryEscape, Hlast by assumption.
    reflexivity. }
  unfold ListCollections_path, CountCollections_path, CreateCollection_path.
  apply String.eqb_neq in Ht, Hd. rewrite Ht, Hd.
  repeat split; apply Hread; reflexivity.
Qed.

Lemma sequence_app {A : Type} (l1 l2 : list (option A)) :
  url.sequence (l1 ++ l2)%list
  = match url.sequence l1, url.sequence l2 with
    | Some a1, Some a2 => Some (a1 ++ a2)%list
    | _, _ => None
    end.
Proof.
  induction l1 as [| [a |] l1 IH]; cbn [app url.sequence].
  - destruct (url.sequence l2); reflexivity.
  - rewrite IH. destruct (url.sequence l1), (url.sequence l2); reflexivity.
  - reflexivity.
Qed.

(** A segment without [%] is unescaped to itself. *)
Lemma PathUnescape_without_percent (s : string) :
  url.contains "%" s = false -> url.PathUnescape s = Some s.
Proof.
  unfold url.PathUnescape.
  induction s as [| x s IH]; [reflexivity |].
  cbn [url.contains url.unescape]. intros H.
  apply orb_false_iff in H. destruct H as [Hx Hs].
  rewrite Hx, (IH Hs). destruct (Ascii.eqb x "+") eqn:Hplus; [| reflexivity].
  apply Ascii.eqb_eq in Hplus. now subst x.
Qed.

(** The segments of a scoped path that ends in the name of a collection. *)
Lemma segments_scoped_name (scopeTenant scopeDatabase name : string) :
  url.contains " " scopeTenant = false ->
  url.contains " " scopeDatabase = false ->
  url.contains "/" name = false ->
  url.segments ("/api/v2/tenants/" ++ url.QueryEscape scopeTenant
                  ++ "/databases/" ++ url.QueryEscape scopeDatabase
                  ++ "/collections/" ++ name)
  = option_map
      (fun read => [""; "api"; "v2"; "tenants"; scopeTenant; "databases";
                    scopeDatabase; "collections"; read])
      (url.PathUnescape name).
Proof.
  intros Ht Hd Hname. unfold url.segments.
  rewrite split_scoped_name, (split_slash_last _ Hname).
  rewrite map_app, sequence_app. cbn [map].
  rewrite !PathUnescape_QueryEscape by assumption.
  cbn. destruct (url.PathUnescape name); reflexivity.
Qed.

(** The name of a collection is inserted as it is.  When the name holds
    no [/] and is made of bytes that may stand in a path as they are (letters,
    digits, [-_.~], [!$&'()*+,;=:@], brackets and [%]; so no control byte,
    no space, no [?] and no [#]), the request of [GetCollection] and
    [DeleteCollection] is made exactly when the name can be unescaped, and
    a server reads the name unescaped once; a name that holds no [%]
    either is read back as it is. *)
Theorem collection_name_as_read c (name tenant' database' : string) :
  tenant' <> "" -> database' <> "" ->
  url.contains " " tenant' = false ->
  url.contains " " database' = false ->
  url.contains "/" name = false ->
  urlpkg.validEncoded name = true ->
  readSegments (GetCollection_path c name tenant' database')
  = option_map
      (fun read => [""; "api"; "v2"; "tenants"; tenant'; "databases"; database';
                    "collections"; read])
      (url.PathUnescape name)
  /\ DeleteCollection_path c name tenant' database'
     = GetCollection_path c name tenant' database'
  /\ (url.contains "%" name = false ->
      readSegments (GetCollection_path c name tenant' database')
      = Some [""; "api"; "v2"; "tenants"; tenant'; "databases"; database';
              "collections"; name]).
Proof.
  intros Ht Hd Hts Hds Hname Hvalid.
  assert (Hread :
    readSegments (GetCollection_path c name tenant' database')
    = option_map
        (fun read => [""; "api"; "v2"; "tenants"; tenant'; "databases"; database';
                      "collections"; read])
        (url.PathUnescape name)).
  { unfold GetCollection_path.
    apply String.eqb_neq in Ht, Hd. rewrite Ht, Hd.
    rewrite <- (append_empty ("/collections/" ++ name)).
    rewrite (@readSegments_scoped tenant' database' ("/collections/" ++ name) ""
               Hts Hds)
      by first [ now rewrite validEncoded_app, Hvalid
               | reflexivity | now left ].
    rewrite (@unescapePath_app "/collections/" "/collections/") by reflexivity.
    rewrite (@segments_scoped_name tenant' database' name Hts Hds Hname).
    unfold urlpkg.unescapePath, url.PathUnescape.
    now destruct (url.unescape name url.encodePathSegment). }
  split; [exact Hread |]. split; [reflexivity |].
  intros Hpercent. rewrite Hread, PathUnescape_without_percent by assumption.
  reflexivity.
Qed.

(** The id of a collection and the name of a tenant are inserted as they
    are.  An id without [/] and [%] that is made of bytes that may stand in
    a path as they are (so without control byte, space, [?] and [#]), such
    as a UUID, fills one segment of the path of [UpdateCollection], [Add],
    [Update], [Upsert], [Get], [Delete], [Count], [Query] and [GetTenant]:
    the request is made, and a server reads the id back as it is. *)
Theorem collection_id_as_read (collectionID : string) :
  url.contains "/" collectionID = false ->
  url.contains "%" collectionID = false ->
  urlpkg.validEncoded collectionID = true ->
  readSegments (UpdateCollection_path collectionID)
  = Some [""; "api"; "v2"; "collections"; collectionID]
  /\ readSegments (Add_path collectionID)
     = Some [""; "api"; "v2"; "collections"; collectionID; "add"]
  /\ readSegments (Update_path collectionID)
     = Some [""; "api"; "v2"; "collections"; collectionID; "update"]
  /\ readSegments (Upsert_path collectionID)
     = Some [""; "api"; "v2"; "collections"; collectionID; "upsert"]
  /\ readSegments (Get_path collectionID)
     = Some [""; "api"; "v2"; "collections"; collectionID; "get"]
  /\ readSegments (Delete_path collectionID)
     = Some [""; "api"; "v2"; "collections"; collectionID; "delete"]
  /\ readSegments (Count_path collectionID)
     = Some [""; "api"; "v2"; "collections"; collectionID; "count"]
  /\ readSegments (Query_path collectionID)
     = Some [""; "api"; "v2"; "collections"; collectionID; "query"]
  /\ readSegments (GetTenant_path collectionID)
     = Some [""; "api"; "v2"; "tenants"; collectionID].
Proof.
  intros Hslash Hpercent Hvalid.
  pose proof (@PathUnescape_without_percent collectionID Hpercent) as Hid.
  assert (Hverb : forall verb : string,
    url.contains "/" verb = false ->
    urlpkg.validEncoded verb = true ->
    url.PathUnescape verb = Some verb ->
    readSegments ("/api/v2/collections/" ++ collectionID ++ String "/" verb)
    = Some [""; "api"; "v2"; "collections"; collectionID; verb]).
  { intros verb Hv1 Hv2 Hv3.
    rewrite <- (append_empty ("/api/v2/collections/" ++ collectionID
                                ++ String "/" verb)).
    change ("/api/v2/collections/" ++ collectionID ++ String "/" verb)
      with (String "/" ("api/v2/collections/" ++ collectionID ++ String "/" verb)).
    rewrite readSegments_valid;
      [ | change (String "/" ("api/v2/collections/" ++ collectionID
                                ++ String "/" verb))
            with ("/api/v2/collections/" ++ collectionID ++ "/" ++ verb);
          now rewrite !validEncoded_app, Hvalid, Hv2
        | reflexivity | reflexivity | now left ].
    change (String "/" ("api/v2/collections/" ++ collectionID ++ String "/" verb))
      with ("/api/v2/collections/" ++ collectionID ++ "/" ++ verb).
    rewrite (@unescapePath_app "/api/v2/collections/" "/api/v2/collections/")
      by reflexivity.
    rewrite (@unescapePath_app collectionID collectionID) by exact Hid.
    rewrite (@unescapePath_app "/" "/") by reflexivity.
    unfold urlpkg.unescapePath. fold (url.PathUnescape verb). rewrite Hv3.
    cbn [option_map]. unfold url.segments.
    change ("/api/v2/collections/" ++ collectionID ++ "/" ++ verb)
      with ("" ++ String "/" ("api" ++ String "/" ("v2" ++ String "/"
              ("collections" ++ String "/" (collectionID ++ String "/" verb))))).
    rewrite !split_slash_segment by (reflexivity || assumption).
    rewrite split_slash_last by assumption.
    cbn [map]. rewrite Hv3, Hid.
    reflexivity. }
  assert (Hlast : forall kind : string,
    url.contains "/" kind = false ->
    urlpkg.validEncoded kind = true ->
    url.PathUnescape kind = Some kind ->
    readSegments ("/api/v2/" ++ kind ++ String "/" collectionID)
    = Some [""; "api"; "v2"; kind; collectionID]).
  { intros kind Hk1 Hk2 Hk3.
    rewrite <- (append_empty ("/api/v2/" ++ kind ++ String "/" collectionID)).
    change ("/api/v2/" ++ kind ++ String "/" collectionID)
      with (String "/" ("api/v2/" ++ kind ++ String "/" collectionID)).
    rewrite readSegments_valid;
      [ | change (String "/" ("api/v2/" ++ kind ++ String "/" collectionID))
            with ("/api/v2/" ++ kind ++ "/" ++ collectionID);
          now rewrite !validEncoded_app, Hvalid, Hk2
        | reflexivity | reflexivity | now left ].
    change (String "/" ("api/v2/" ++ kind ++ String "/" collectionID))
      with ("/api/v2/" ++ kind ++ "/" ++ collectionID).
    rewrite (@unescapePath_app "/api/v2/" "/api/v2/") by reflexivity.
    rewrite (@unescapePath_app kind kind) by exact Hk3.
    rewrite (@unescapePath_app "/" "/") by reflexivity.
    unfold urlpkg.unescapePath. fold (url.PathUnescape collectionID). rewrite Hid.
    cbn [option_map]. unfold url.segments.
    change ("/api/v2/" ++ kind ++ "/" ++ collectionID)
      with ("" ++ String "/" ("api" ++ String "/" ("v2" ++ String "/"
              (kind ++ String "/" collectionID)))).
    rewrite !split_slash_segment by (reflexivity || assumption).
    rewrite split_slash_last by assumption.
    cbn [map]. rewrite Hk3, Hid.
    reflexivity. }
  unfold UpdateCollection_path, Add_path, Update_path, Upsert_path, Get_path,
    Delete_path, Count_path, Query_path, GetTenant_path.
  split; [apply (Hlast "collections"); reflexivity |].
  repeat (split; [apply Hverb; reflexivity |]).
  apply (Hlast "tenants"); reflexivity.
Qed.


(** A name is inserted as it is, so it can reach into the path of another
    operation: [GetDatabase] with the name of a database followed by
    [/collections] resolves to the path of [ListCollections] for that
    database; both send a [GET] without body. *)
Theorem GetDatabase_path_reaches_ListCollections c (tenant' database' : string) :
  tenant' <> "" -> database' <> "" ->
  GetDatabase_path c (url.QueryEscape database' ++ "/collections") [tenant']
  = ListCollections_path c tenant' database'.
Proof.
  intros Ht Hd.
  unfold GetDatabase_path, ListCollections_path, tenantName.
  apply String.eqb_neq in Ht, Hd. now rewrite Ht, Hd.
Qed.

End Scopes.

Lemma ListCollections_path_injective_witness :
  orDefault "" (tenant (NewClient httptest.Offline []))
  = orDefault "default_tenant" (tenant (NewClient httptest.Offline [WithTenant "acme"]))
  /\ orDefault "docs" (database (NewClient httptest.Offline []))
     = orDefault "docs" (database (NewClient httptest.Offline [WithTenant "acme"])).
Proof.
  apply (@ListCollections_path_injective unit
           (NewClient httptest.Offline [])
           (NewClient httptest.Offline [WithTenant "acme"])
           "" "docs" "default_tenant" "docs").
  reflexivity.
Defined.

Lemma scoped_paths_round_trip_witness :
  readSegments (ListCollections_path (NewClient httptest.Offline []) "a/b?c" "d#e")
  = Some [""; "api"; "v2"; "tenants"; "a/b?c"; "databases"; "d#e"; "collections"]
  /\ readSegments (CountCollections_path (NewClient httptest.Offline []) "a/b?c" "d#e")
     = Some [""; "api"; "v2"; "tenants"; "a/b?c"; "databases"; "d#e";
             "collections_count"]
  /\ readSegments (CreateCollection_path (NewClient httptest.Offline []) "a/b?c" "d#e")
     = Some [""; "api"; "v2"; "tenants"; "a/b?c"; "databases"; "d#e";
             "collections"].
Proof.
  apply (@scoped_paths_round_trip unit (NewClient httptest.Offline [])
           "a/b?c" "d#e").
  - discriminate.
  - discriminate.
  - reflexivity.
  - reflexivity.
Defined.

(** The name [100%25] is read back as [100%]. *)
Lemma collection_name_as_read_witness :
  readSegments (GetCollection_path (NewClient httptest.Offline []) "100%25" "t" "d")
  = Some [""; "api"; "v2"; "tenants"; "t"; "databases"; "d"; "collections"; "100%"].
Proof.
  pose proof (@collection_name_as_read unit (NewClient httptest.Offline [])
                "100%25" "t" "d") as H.
  destruct H as (Hread & _ & _).
  - discriminate.
  - discriminate.
  - reflexivity.
  - reflexivity.
  - reflexivity.
  - reflexivity.
  - exact Hread.
Defined.

(** A UUID as id of the collection. *)
Lemma collection_id_as_read_witness :
  readSegments (Add_path "0b5a6c2e-9f1d-4c3a-8e7b-1a2b3c4d5e6f")
  = Some [""; "api"; "v2"; "collections";
          "0b5a6c2e-9f1d-4c3a-8e7b-1a2b3c4d5e6f"; "add"].
Proof.
  pose proof (@collection_id_as_read "0b5a6c2e-9f1d-4c3a-8e7b-1a2b3c4d5e6f")
    as H.
  destruct H as (_ & Hadd & _).
  - reflexivity.
  - reflexivity.
  - reflexivity.
  - exact Hadd.
Defined.


(** A name with a control byte, here a tab: [url.Parse] refuses the
    address and no request is made. *)
Example collection_name_with_tab_not_sent :
  readSegments (GetCollection_path (NewClient httptest.Offline [])
                  (String (ascii_of_nat 9) "docs") "t" "d")
  = None.
Proof. reflexivity. Qed.

(** A name that ends in a [%] without digits: no request is made. *)
Example collection_name_malformed_escape_not_sent :
  readSegments (GetCollection_path (NewClient httptest.Offline []) "50%" "t" "d")
  = None.
Proof. reflexivity. Qed.

(** A name with a space is no valid encoding: the path is sent escaped
    anew, and the name is read back as it is. *)
Example collection_name_with_space_escaped_anew :
  readSegments (GetCollection_path (NewClient httptest.Offline []) "my docs" "t" "d")
  = Some [""; "api"; "v2"; "tenants"; "t"; "databases"; "d"; "collections";
          "my docs"].
Proof. reflexivity. Qed.

(** Escaped anew, an escaped slash becomes a slash: the name [a%2Fb c]
    is read as two segments. *)
Example collection_name_escaped_anew_splits :
  readSegments (GetCollection_path (NewClient httptest.Offline []) "a%2Fb c" "t" "d")
  = Some [""; "api"; "v2"; "tenants"; "t"; "databases"; "d"; "collections";
          "a"; "b c"].
Proof. reflexivity. Qed.

Lemma GetDatabase_path_reaches_ListCollections_witness :
  GetDatabase_path (NewClient httptest.Offline [])
    (url.QueryEscape "docs" ++ "/collections") ["acme"]
  = ListCollections_path (NewClient httptest.Offline []) "acme" "docs".
Proof.
  apply (@GetDatabase_path_reaches_ListCollections unit
           (NewClient httptest.Offline []) "acme" "docs").
  - discriminate.
  - discriminate.
Defined.

(** * The operations without result *)

Section Writes.

Variable GoContext : Type.
Variable http_NewRequestWithContext :
  GoContext -> string -> string -> option (list byte) ->
  error + http.Request GoContext.

Context {AddEmbedding UpdateEmbedding : Type}.
Context {AddEmbedding_Marshaler : json.Marshaler AddEmbedding}.
Context {UpdateEmbedding_Marshaler : json.Marshaler UpdateEmbedding}.

Variable c : Client GoContext.
Variable ctx : GoContext.
Variable w : World GoContext.

(** A [POST] without result target, against a server that answers every
    request with [status] and [respBody]. *)
Lemma post_without_target {Req : Type} {Req_Marshaler : json.Marshaler Req}
    (path : string) (req : Req) (status : Z) (respBody : list byte) :
  (forall r : http.Request GoContext, answered c w r status respBody) ->
  fst (fst (doRequest http_NewRequestWithContext c ctx http.MethodPost path
              (Some req) (@None nilResult) w))
    = None
  <-> (exists r : http.Request GoContext,
         buildRequest http_NewRequestWithContext c ctx http.MethodPost path (Some req)
         = inr r)
      /\ 200 <= status < 300.
Proof.
  intros Hserver.
  destruct (buildRequest http_NewRequestWithContext c ctx http.MethodPost path
              (Some req)) as [err | r] eqn:Hreq.
  - rewrite (doRequest_not_sent _ _ _ _ _ _ _ _ Hreq). cbn [fst].
    split; [discriminate | intros [[r Hr] _]; discriminate].
  - rewrite (doRequest_sent _ _ _ _ _ _ _ _ Hreq). cbn zeta.
    destruct (Hserver r) as (resp & Hresp & Hstatus & Hread).
    rewrite Hresp, Hread, Hstatus.
    destruct (isFailure status) eqn:Hfail; cbn [fst].
    + apply isFailure_spec in Hfail.
      split; [discriminate | intros [_ Hok]; lia].
    + apply isFailure_false in Hfail.
      split; [intros _; split; [now exists r | exact Hfail] | reflexivity].
Qed.

(** [Add], [Update] and [Upsert] hand over no result target.  Against a
    server that answers with [status], each returns no error exactly when
    its request could be built and the status lies in [200,300); what the
    body of the answer holds plays no part. *)
Theorem writes_succeed_exactly_on_2xx
    (collectionID : string) (added : AddEmbedding) (updated : UpdateEmbedding)
    (status : Z) (respBody : list byte) :
  (forall r : http.Request GoContext, answered c w r status respBody) ->
  (fst (Add http_NewRequestWithContext c ctx collectionID added w) = None
   <-> (exists r : http.Request GoContext,
          buildRequest http_NewRequestWithContext c ctx http.MethodPost
            (Add_path collectionID) (Some added) = inr r)
       /\ 200 <= status < 300)
  /\ (fst (Update http_NewRequestWithContext c ctx collectionID updated w) = None
      <-> (exists r : http.Request GoContext,
             buildRequest http_NewRequestWithContext c ctx http.MethodPost
               (Update_path collectionID) (Some updated) = inr r)
          /\ 200 <= status < 300)
  /\ (fst (Upsert http_NewRequestWithContext c ctx collectionID added w) = None
      <-> (exists r : http.Request GoContext,
             buildRequest http_NewRequestWithContext c ctx http.MethodPost
               (Upsert_path collectionID) (Some added) = inr r)
          /\ 200 <= status < 300).
Proof.
  intros Hserver.
  assert (Hfst : forall (A S : Type) (x : (option error * A) * S),
             fst (let (a, s) := x in (fst a, s)) = fst (fst x))
    by (intros A S [[e a] s]; reflexivity).
  unfold Add, Update, Upsert, bind, ret. rewrite !Hfst.
  split; [| split]; apply (post_without_target _ _ Hserver).
Qed.

End Writes.

(** [Add] with the body [true], against a server that answers 500: the
    call returns an error. *)
Lemma writes_succeed_exactly_on_2xx_witness :
  fst (Add httptest.NewRequestWithContext
         (httptest.client 500 httptest.not_found_body) tt "c1" true httptest.start)
    = None
  <-> (exists r : http.Request unit,
         buildRequest httptest.NewRequestWithContext
           (httptest.client 500 httptest.not_found_body) tt
           http.MethodPost (Add_path "c1") (Some true) = inr r)
      /\ 200 <= 500 < 300.
Proof.
  apply (@writes_succeed_exactly_on_2xx unit httptest.NewRequestWithContext
           bool bool _ _ (httptest.client 500 httptest.not_found_body) tt
           httptest.start "c1" true true 500 httptest.not_found_body).
  intros r. apply httptest_answered.
Defined.

(** * Decoding into a string: the JSON of the response *)

Section Denotation.

Local Open Scope list_scope.

Lemma simpleEscape_not_u (letter b : byte) :
  json_string.simpleEscape letter = Some b ->
  (json_string.code letter =? 117)%N = false.
Proof. destruct letter; cbn; intros H; (discriminate H || reflexivity). Qed.

Lemma escape_step (letter b : byte) (fuel : nat) (rest : list byte) :
  json_string.simpleEscape letter = Some b ->
  json_string.unquote (S fuel) (x5c :: letter :: rest)
  = json_string.emit [b] (json_string.unquote fuel rest).
Proof.
  intros H. cbn [json_string.unquote].
  change (json_string.code x5c =? 34)%N with false.
  change (json_string.code x5c =? 92)%N with true.
  cbn iota. rewrite (simpleEscape_not_u _ H), H. reflexivity.
Qed.

Lemma surrogate_halves (r : N) :
  json_string.IsSurrogate r = json_text.isHigh r || json_text.isLow r.
Proof.
  unfold json_string.IsSurrogate, json_text.isHigh, json_text.isLow.
  destruct (55296 <=? r)%N eqn:H1, (r <? 57344)%N eqn:H2,
    (r <? 56320)%N eqn:H3, (56320 <=? r)%N eqn:H4; try reflexivity;
    repeat match goal with
           | H : (_ <=? _)%N = true |- _ => apply N.leb_le in H
           | H : (_ <=? _)%N = false |- _ => apply N.leb_gt in H
           | H : (_ <? _)%N = true |- _ => apply N.ltb_lt in H
           | H : (_ <? _)%N = false |- _ => apply N.ltb_ge in H
           end; lia.
Qed.

Lemma unicode_step (h1 h2 h3 h4 : byte) (r : N) (fuel : nat) (rest : list byte) :
  json_string.getu4 [x5c; x75; h1; h2; h3; h4] = Some r ->
  json_text.isHigh r = false -> json_text.isLow r = false ->
  json_string.unquote (S fuel) (x5c :: x75 :: h1 :: h2 :: h3 :: h4 :: rest)
  = json_string.emit (json_string.EncodeRune r) (json_string.unquote fuel rest).
Proof.
  intros Hr Hhigh Hlow. cbn [json_string.unquote].
  change (json_string.code x5c =? 34)%N with false.
  change (json_string.code x5c =? 92)%N with true.
  change (json_string.code x75 =? 117)%N with true.
  cbn iota.
  change (json_string.getu4 (x5c :: x75 :: h1 :: h2 :: h3 :: h4 :: rest))
    with (json_string.getu4 [x5c; x75; h1; h2; h3; h4]).
  rewrite Hr, surrogate_halves, Hhigh, Hlow. reflexivity.
Qed.

(** The two ways to write the code point of a surrogate pair. *)
Lemma lor_shiftl_10 (a b : N) :
  (b < 1024)%N -> N.lor (N.shiftl a 10) b = (1024 * a + b)%N.
Proof.
  intros Hb.
  assert (Hland : N.land (N.shiftl a 10) b = 0%N).
  { apply N.bits_inj. intros n. rewrite N.land_spec, N.bits_0.
    destruct (N.lt_ge_cases n 10) as [Hn | Hn].
    - now rewrite N.shiftl_spec_low.
    - destruct (N.eq_dec b 0) as [-> | Hb0]; [now rewrite N.bits_0, andb_false_r |].
      rewrite (N.bits_above_log2 b n), andb_false_r; [reflexivity |].
      apply N.lt_le_trans with (m := 10%N); [| exact Hn].
      apply N.log2_lt_pow2; [lia | exact Hb]. }
  rewrite <- N.lxor_lor by exact Hland.
  rewrite <- N.add_nocarry_lxor by exact Hland.
  rewrite N.shiftl_mul_pow2. change (2 ^ 10)%N with 1024%N. lia.
Qed.

Lemma DecodeRune16_pair (high low : N) :
  json_text.isHigh high = true -> json_text.isLow low = true ->
  json_string.DecodeRune16 high low = json_text.pair high low.
Proof.
  unfold json_text.isHigh, json_text.isLow, json_string.DecodeRune16, json_text.pair.
  intros Hh Hl.
  apply andb_true_iff in Hh, Hl. destruct Hh as [Hh1 Hh2], Hl as [Hl1 Hl2].
  rewrite Hh1, Hh2, Hl1, Hl2. cbn [andb].
  apply N.leb_le in Hh1, Hl1. apply N.ltb_lt in Hh2, Hl2.
  rewrite lor_shiftl_10 by lia. lia.
Qed.

Lemma pair_step (h1 h2 h3 h4 l1 l2 l3 l4 : byte) (high low : N)
    (fuel : nat) (rest : list byte) :
  json_string.getu4 [x5c; x75; h1; h2; h3; h4] = Some high ->
  json_string.getu4 [x5c; x75; l1; l2; l3; l4] = Some low ->
  json_text.isHigh high = true -> json_text.isLow low = true ->
  json_string.unquote (S fuel)
    (x5c :: x75 :: h1 :: h2 :: h3 :: h4
       :: x5c :: x75 :: l1 :: l2 :: l3 :: l4 :: rest)
  = json_string.emit (json_string.EncodeRune (json_text.pair high low))
      (json_string.unquote fuel rest).
Proof.
  intros Hhigh Hlow Hh Hl. cbn [json_string.unquote].
  change (json_string.code x5c =? 34)%N with false.
  change (json_string.code x5c =? 92)%N with true.
  change (json_string.code x75 =? 117)%N with true.
  cbn iota.
  change (json_string.getu4
            (x5c :: x75 :: h1 :: h2 :: h3 :: h4
               :: x5c :: x75 :: l1 :: l2 :: l3 :: l4 :: rest))
    with (json_string.getu4 [x5c; x75; h1; h2; h3; h4]).
  rewrite Hhigh, surrogate_halves, Hh. cbn [orb skipn].
  change (json_string.getu4 (x5c :: x75 :: l1 :: l2 :: l3 :: l4 :: rest))
    with (json_string.getu4 [x5c; x75; l1; l2; l3; l4]).
  rewrite Hlow, (DecodeRune16_pair _ _ Hh Hl).
  assert (Hnot : (json_text.pair high low =? json_string.ReplacementChar)%N = false).
  { apply N.eqb_neq. unfold json_text.pair, json_string.ReplacementChar. lia. }
  rewrite Hnot. reflexivity.
Qed.

Lemma runeWidth_app (sequence rest : list byte) :
  (2 <= List.length sequence)%nat ->
  json_string.runeWidth sequence = List.length sequence ->
  json_string.runeWidth (sequence ++ rest) = List.length sequence
  /\ exists b0 tail, sequence = b0 :: tail /\ (128 <= json_string.code b0)%N.
Proof.
  intros Hlen Hwidth.
  destruct sequence as [| b0 [| b1 [| b2 [| b3 [| b4 more]]]]];
    cbn [List.length] in Hlen; try lia;
    (split; [| exists b0; eexists; split; [reflexivity |]]);
    unfold json_string.runeWidth in *; cbn [app List.length] in *;
    destruct (json_string.code b0 <? 128)%N eqn:Hascii;
    try discriminate Hwidth;
    try (apply N.ltb_ge in Hascii; exact Hascii);
    repeat match type of Hwidth with
           | context [if ?t then _ else _] =>
               destruct t; try discriminate Hwidth
           end;
    try reflexivity; try discriminate Hwidth.
Qed.

Lemma utf8_step (sequence rest : list byte) (fuel : nat) :
  (2 <= List.length sequence)%nat ->
  json_string.runeWidth sequence = List.length sequence ->
  json_string.unquote (S fuel) (sequence ++ rest)
  = json_string.emit sequence (json_string.unquote fuel rest).
Proof.
  intros Hlen Hwidth.
  destruct (runeWidth_app sequence rest Hlen Hwidth)
    as (Happ & b0 & tail & -> & Hb0).
  cbn [json_string.unquote app].
  assert (H34 : (json_string.code b0 =? 34)%N = false) by (apply N.eqb_neq; lia).
  assert (H92 : (json_string.code b0 =? 92)%N = false) by (apply N.eqb_neq; lia).
  assert (H32 : (json_string.code b0 <? 32)%N = false) by (apply N.ltb_ge; lia).
  assert (H128 : (json_string.code b0 <? 128)%N = false) by (apply N.ltb_ge; lia).
  rewrite H34, H92, H32, H128.
  change (b0 :: tail ++ rest) with ((b0 :: tail) ++ rest).
  rewrite Happ. cbn [List.length].
  change (S (List.length tail)) with (List.length (b0 :: tail)).
  rewrite firstn_app, firstn_all, Nat.sub_diag, skipn_app, skipn_all, Nat.sub_diag.
  cbn [firstn skipn app]. now rewrite app_nil_r.
Qed.

(** The decoder finds the string that the literal denotes. *)
Lemma unquote_denotes (text s : list byte) :
  json_text.denotes text s ->
  forall (fuel : nat) (tail : list byte),
    (List.length text < fuel)%nat ->
    json_string.unquote fuel (text ++ x22 :: tail) = Some (s, tail).
Proof.
  induction 1 as [| b text s Hb _ IH | sequence text s Hlen Hwidth _ IH
                  | letter b text s Hletter _ IH
                  | h1 h2 h3 h4 r text s Hr Hh Hl _ IH
                  | h1 h2 h3 h4 l1 l2 l3 l4 high low text s Hhigh Hlow Hh Hl _ IH];
    intros fuel tail Hfuel;
    (destruct fuel as [| fuel]; [inversion Hfuel |]).
  - reflexivity.
  - cbn [app]. rewrite plain_step by exact Hb.
    rewrite IH by (cbn [List.length] in Hfuel; lia). reflexivity.
  - rewrite <- app_assoc, utf8_step by assumption.
    rewrite IH by (rewrite length_app in Hfuel; lia). reflexivity.
  - cbn [app]. rewrite (@escape_step letter b _ _ Hletter).
    rewrite IH by (cbn [List.length] in Hfuel; lia). reflexivity.
  - cbn [app]. rewrite (@unicode_step h1 h2 h3 h4 r _ _ Hr Hh Hl).
    rewrite IH by (cbn [List.length] in Hfuel; lia). reflexivity.
  - cbn [app].
    rewrite (@pair_step h1 h2 h3 h4 l1 l2 l3 l4 high low _ _ Hhigh Hlow Hh Hl).
    rewrite IH by (cbn [List.length] in Hfuel; lia). reflexivity.
Qed.

Lemma skipSpace_before (before rest : list byte) :
  forallb json_string.isSpace before = true ->
  json_string.skipSpace (before ++ x22 :: rest) = x22 :: rest.
Proof.
  induction before as [| b before IH]; cbn [forallb app json_string.skipSpace].
  - reflexivity.
  - intros H. apply andb_true_iff in H. destruct H as [Hb Hrest].
    rewrite Hb. now apply IH.
Qed.

Lemma skipSpace_after (after : list byte) :
  forallb json_string.isSpace after = true ->
  json_string.skipSpace after = [].
Proof.
  induction after as [| b after IH]; cbn [forallb json_string.skipSpace].
  - reflexivity.
  - intros H. apply andb_true_iff in H. destruct H as [Hb Hrest].
    rewrite Hb. now apply IH.
Qed.

(** [json.Unmarshal] into a string gives the string that the text denotes. *)
Lemma Unmarshal_string_denotes (before text after s : list byte) (v : string) :
  forallb json_string.isSpace before = true ->
  json_text.denotes text s ->
  forallb json_string.isSpace after = true ->
  json_string.Unmarshal_string (json_text.stringText before text after) v
  = (string_of_list_byte s, None).
Proof.
  intros Hbefore Htext Hafter.
  unfold json_string.Unmarshal_string, json_text.stringText.
  rewrite skipSpace_before by exact Hbefore.
  change (json_string.code x22 =? 34)%N with true. cbn iota.
  rewrite (unquote_denotes Htext) by (rewrite length_app; cbn [List.length]; lia).
  now rewrite skipSpace_after.
Qed.

(** A text that begins, white space apart, with a byte that is neither the
    quote nor the [n] of [null] is refused, and the target is not written. *)
Lemma Unmarshal_string_other (data : list byte) (first : byte) (rest : list byte)
    (v : string) :
  json_string.skipSpace data = first :: rest ->
  json_string.code first <> 34%N ->
  json_string.code first <> 110%N ->
  json_string.Unmarshal_string data v = (v, Some json_string.rejected).
Proof.
  intros Hdata Hquote Hnull.
  unfold json_string.Unmarshal_string, json_string.isNull. rewrite Hdata.
  apply N.eqb_neq in Hquote, Hnull. rewrite Hquote.
  destruct rest as [| u [| l1 [| l2 tail]]]; try reflexivity.
  rewrite Hnull. reflexivity.
Qed.

End Denotation.

Section Decoded.

Variable GoContext : Type.
Variable http_NewRequestWithContext :
  GoContext -> string -> string -> option (list byte) ->
  error + http.Request GoContext.

Context {B : Type} {B_Marshaler : json.Marshaler B}.

Variable c : Client GoContext.
Variable ctx : GoContext.
Variables method path : string.
Variable body : option B.
Variable w : World GoContext.

(** C2, as amended.  On a response with a status in [200,300) and a body
    that is not empty, a call with a result target hands the body to
    [json.Unmarshal]: it returns no error exactly when [json.Unmarshal]
    accepts the body for the type of the target, and the target then holds
    the value decoded.  For a string target that value is the one of the
    JSON of the response: a body that is a JSON string literal, white space
    around it allowed, leaves in the target the string that the literal
    denotes, and a body that begins with anything but a quote or the [n] of
    [null] (a number, a boolean, an array, an object) gives the error
    [failed to unmarshal response] and leaves the target as it was. *)
Theorem doRequest_decodes_json (req : http.Request GoContext) (status : Z) :
  buildRequest http_NewRequestWithContext c ctx method path body = inr req ->
  200 <= status < 300 ->
  (forall (T : Type) (decode : json.Unmarshaler T) (respBody : list byte) (v : T),
     answered c w req status respBody ->
     respBody <> [] ->
     doRequest (T_Unmarshaler := decode) http_NewRequestWithContext
       c ctx method path body (Some v) w
     = (match snd (@json.Unmarshal T decode respBody v) with
        | None => None
        | Some err => Some (fmt.Errorf_w "failed to unmarshal response: " err)
        end,
        Some (fst (@json.Unmarshal T decode respBody v)),
        afterDo c w req))
  /\ (forall (before text after s : list byte) (v : string),
        forallb json_string.isSpace before = true ->
        json_text.denotes text s ->
        forallb json_string.isSpace after = true ->
        answered c w req status (json_text.stringText before text after) ->
        doRequest (T_Unmarshaler := json_string.Unmarshal_string)
          http_NewRequestWithContext c ctx method path body (Some v) w
        = (None, Some (string_of_list_byte s), afterDo c w req))
  /\ (forall (respBody : list byte) (first : byte) (rest : list byte) (v : string),
        json_string.skipSpace respBody = first :: rest ->
        json_string.code first <> 34%N ->
        json_string.code first <> 110%N ->
        answered c w req status respBody ->
        doRequest (T_Unmarshaler := json_string.Unmarshal_string)
          http_NewRequestWithContext c ctx method path body (Some v) w
        = (Some (fmt.Errorf_w "failed to unmarshal response: " json_string.rejected),
           Some v, afterDo c w req)).
Proof.
  intros Hreq Hok. split; [| split].
  - intros T decode respBody v Hresp Hbody.
    exact (@doRequest_decodes GoContext http_NewRequestWithContext B T
             B_Marshaler decode c ctx method path body (Some v) w
             req status respBody v Hreq Hresp Hok Hbody eq_refl).
  - intros before text after s v Hbefore Htext Hafter Hresp.
    rewrite (@doRequest_decodes GoContext http_NewRequestWithContext B string
               B_Marshaler json_string.Unmarshal_string c ctx method path body
               (Some v) w req status (json_text.stringText before text after) v
               Hreq Hresp Hok);
      [| unfold json_text.stringText; now destruct before | reflexivity].
    unfold json.Unmarshal.
    now rewrite (@Unmarshal_string_denotes before text after s v Hbefore Htext Hafter).
  - intros respBody first rest v Hfirst Hquote Hnull Hresp.
    rewrite (@doRequest_decodes GoContext http_NewRequestWithContext B string
               B_Marshaler json_string.Unmarshal_string c ctx method path body
               (Some v) w req status respBody v Hreq Hresp Hok);
      [| intros ->; discriminate Hfirst | reflexivity].
    unfold json.Unmarshal.
    now rewrite (@Unmarshal_string_other respBody first rest v Hfirst Hquote Hnull).
Qed.

End Decoded.

(** The scenario of the specification: [GET /api/v2/version] with a [nil]
    body and a string target, against a server that answers 200 with the
    JSON text of the string [0.4.24]. *)
Lemma doRequest_decodes_json_witness :
  httptest.get 200 httptest.version_body "/api/v2/version" ""
  = (None, Some "0.4.24",
     {| calls := [httptest.get_request "/api/v2/version"]; clock := 1 |}).
Proof.
  destruct (@doRequest_decodes_json unit httptest.NewRequestWithContext nilBody _
              (httptest.client 200 httptest.version_body) tt
              "GET" "/api/v2/version" None httptest.start
              (httptest.get_request "/api/v2/version") 200)
    as (_ & Hstring & _).
  - reflexivity.
  - lia.
  - apply (Hstring [] [x30; x2e; x34; x2e; x32; x34] [x0a]
                   [x30; x2e; x34; x2e; x32; x34] "").
    + reflexivity.
    + repeat (apply json_text.denotes_plain; [reflexivity |]).
      apply json_text.denotes_end.
    + reflexivity.
    + apply httptest_answered.
Defined.
